(** * aws_cli_tool: guardrails and command dispatch

    A shallow embedding of [aws_cli_tool.py].  The three handlers
    ([handle_ec2_commands], [handle_s3_commands], [handle_route53_commands])
    and [main] are written in a small state-and-exception monad over a
    [World] that holds what the script can observe or change: the remote
    provider behind the boto3 clients, the log of remote calls, the terminal,
    the local files and the process-wide string hash. *)

From Stdlib Require Import ZArith Lia.
From stdpp Require Import base option list strings pretty gmap.

Local Open Scope string_scope.
Local Open Scope Z_scope.
Local Open Scope list_scope.

(** ** Data exchanged with the provider *)

(** Shapes of the boto3 requests and responses the script touches; only the
    keys the script reads or writes are kept. *)
Module Ec2.
Record Filter := { Name : string; Values : list string }.
Record Tag := { Key : string; Value : string }.
Record TagSpecification := { ResourceType : string; Tags : list Tag }.
Record State := { StateName : string }.
Record Instance := { InstanceId : string; InstanceState : State }.
Record Reservation := { Instances : list Instance }.
Record DescribeInstancesResult := { Reservations : list Reservation }.
Record RunInstancesResult := { NewInstances : list Instance }.
End Ec2.

Module S3.
Record Bucket := { Name : string }.
Record ListBucketsResult := { Buckets : list Bucket }.
End S3.

Module Route53.
Record HostedZone := { Id : string }.
Record CreateHostedZoneResult := { Zone : HostedZone }.
End Route53.

(** One constructor per client method the script calls, with the keyword
    arguments of the call site. *)
Inductive Call :=
| DescribeInstances (Filters : list Ec2.Filter)
| RunInstances (ImageId InstanceType : string) (MinCount MaxCount : Z)
               (TagSpecifications : list Ec2.TagSpecification)
| StartInstances (InstanceIds : list string)
| StopInstances (InstanceIds : list string)
| CreateBucket (Bucket LocationConstraint : string)
| PutBucketAcl (Bucket ACL : string)
| ListBuckets
| UploadFileobj (Fileobj : list Byte.byte) (Bucket Key : string)
| CreateHostedZone (Name CallerReference : string).

(** Calls that only read remote state, against calls that change it. *)
Definition mutating (c : Call) : bool :=
  match c with
  | DescribeInstances _ | ListBuckets => false
  | _ => true
  end.

Definition is_upload (c : Call) : bool :=
  match c with UploadFileobj _ _ _ => true | _ => false end.

Definition is_start_stop (c : Call) : bool :=
  match c with StartInstances _ | StopInstances _ => true | _ => false end.

(** ** Exceptions and outcomes *)

Inductive Exception :=
| ClientError (detail : string)        (* raised by a boto3 client method *)
| IndexError
| UnboundLocalError (name : string)
| AttributeError (name : string)
| EOFError
| OSError (path : string).

Inductive Outcome (A : Type) :=
| Returned (a : A)
| Raised (e : Exception).
Arguments Returned {A} a.
Arguments Raised {A} e.

(** ** The world *)

(** The provider is an oracle: the answer to a call may depend on the calls
    made before it.  The script depends on nothing else of the remote side. *)
Record Provider := {
  on_describe_instances : list Call -> list Ec2.Filter -> Outcome Ec2.DescribeInstancesResult;
  on_run_instances : list Call -> string -> string -> Z -> Z ->
                     list Ec2.TagSpecification -> Outcome Ec2.RunInstancesResult;
  on_start_instances : list Call -> list string -> Outcome unit;
  on_stop_instances : list Call -> list string -> Outcome unit;
  on_create_bucket : list Call -> string -> string -> Outcome unit;
  on_put_bucket_acl : list Call -> string -> string -> Outcome unit;
  on_list_buckets : list Call -> Outcome S3.ListBucketsResult;
  on_upload_fileobj : list Call -> list Byte.byte -> string -> string -> Outcome unit;
  on_create_hosted_zone : list Call -> string -> string -> Outcome Route53.CreateHostedZoneResult
}.

(** What reaches the terminal: lines written by [print], prompts written by
    [input], and the usage text of [parser.print_help()]. *)
Inductive Output :=
| Printed (line : string)
| Prompted (prompt : string)
| Help.

Record World := {
  provider : Provider;
  str_hash : string -> Z;                 (* hash() on str, fixed for the life of the process *)
  files : gmap string (list Byte.byte);   (* readable local files, by path *)
  stdin : list string;                    (* lines still to be read *)
  calls : list Call;                      (* remote calls made so far, oldest first *)
  terminal : list Output                  (* what was written so far, oldest first *)
}.

Definition log_call (c : Call) (w : World) : World :=
  {| provider := provider w; str_hash := str_hash w; files := files w;
     stdin := stdin w; calls := calls w ++ [c]; terminal := terminal w |}.

Definition write (o : Output) (w : World) : World :=
  {| provider := provider w; str_hash := str_hash w; files := files w;
     stdin := stdin w; calls := calls w; terminal := terminal w ++ [o] |}.

Definition set_stdin (rest : list string) (w : World) : World :=
  {| provider := provider w; str_hash := str_hash w; files := files w;
     stdin := rest; calls := calls w; terminal := terminal w |}.

(** ** The monad of the script *)

(** A statement runs in a world and either returns or raises; what it did to
    the world before raising stays done. *)
Definition M (A : Type) : Type := World -> Outcome A * World.

Definition ret {A} (a : A) : M A := fun w => (Returned a, w).

Definition raise {A} (e : Exception) : M A := fun w => (Raised e, w).

Definition bind {A B} (k : A -> M B) (m : M A) : M B :=
  fun w =>
    match m w with
    | (Returned a, w') => k a w'
    | (Raised e, w') => (Raised e, w')
    end.

(** With these instances [x ← m; k] and [m;; k] sequence statements. *)
#[global] Instance M_ret : MRet M := @ret.
#[global] Instance M_bind : MBind M := @bind.

(** [print(line)] *)
Definition print (line : string) : M unit :=
  fun w => (Returned tt, write (Printed line) w).

(** [input(prompt)]: writes the prompt, then reads one line; [EOFError] when
    nothing is left to read. *)
Definition input (prompt : string) : M string :=
  fun w =>
    let w' := write (Prompted prompt) w in
    match stdin w with
    | [] => (Raised EOFError, w')
    | line :: rest => (Returned line, set_stdin rest w')
    end.

(** [open(path, 'rb')] followed by reading the file object. *)
Definition open_rb (path : string) : M (list Byte.byte) :=
  fun w =>
    match files w !! path with
    | Some data => (Returned data, w)
    | None => (Raised (OSError path), w)
    end.

(** [hash(s)] for a [str]. *)
Definition hash (s : string) : M Z := fun w => (Returned (str_hash w s), w).

(** A remote call: it is logged, and the provider answers from the history
    before it. *)
Definition remote {R} (c : Call) (answer : Provider -> list Call -> Outcome R) : M R :=
  fun w => (answer (provider w) (calls w), log_call c w).

(** ** Python built-ins the script uses *)

(** [str.lower], on the ASCII letters.  No character outside A-Z lowercases
    to a letter of the word the script compares with, so the comparison of
    line 109 is decided the same way. *)
Definition lower_ascii (c : Ascii.ascii) : Ascii.ascii :=
  let n := Ascii.nat_of_ascii c in
  if ((65 <=? n) && (n <=? 90))%nat then Ascii.ascii_of_nat (n + 32) else c.

Fixpoint lower (s : string) : string :=
  match s with
  | EmptyString => EmptyString
  | String c rest => String (lower_ascii c) (lower rest)
  end.

(** [str(n)] for an [int]: decimal digits, with a leading minus sign. *)
Definition str (n : Z) : string := pretty n.

(** [xs[0]] *)
Definition first {A} (xs : list A) : M A :=
  match xs with
  | x :: _ => ret x
  | [] => raise IndexError
  end.

(** Reading a local variable that may not have been assigned. *)
Definition local {A} (name : string) (v : option A) : M A :=
  match v with
  | Some a => ret a
  | None => raise (UnboundLocalError name)
  end.

(** [for x in xs: body] *)
Fixpoint for_each {A} (xs : list A) (body : A -> M unit) : M unit :=
  match xs with
  | [] => ret tt
  | x :: rest => body x;; for_each rest body
  end.

(** ** The clients (lines 6-8) *)

Module ec2.
Definition describe_instances (Filters : list Ec2.Filter) : M Ec2.DescribeInstancesResult :=
  remote (DescribeInstances Filters) (fun p h => on_describe_instances p h Filters).
Definition run_instances (ImageId InstanceType : string) (MinCount MaxCount : Z)
    (TagSpecifications : list Ec2.TagSpecification) : M Ec2.RunInstancesResult :=
  remote (RunInstances ImageId InstanceType MinCount MaxCount TagSpecifications)
         (fun p h => on_run_instances p h ImageId InstanceType MinCount MaxCount TagSpecifications).
Definition start_instances (InstanceIds : list string) : M unit :=
  remote (StartInstances InstanceIds) (fun p h => on_start_instances p h InstanceIds).
Definition stop_instances (InstanceIds : list string) : M unit :=
  remote (StopInstances InstanceIds) (fun p h => on_stop_instances p h InstanceIds).
End ec2.

Module s3.
Definition create_bucket (Bucket LocationConstraint : string) : M unit :=
  remote (CreateBucket Bucket LocationConstraint)
         (fun p h => on_create_bucket p h Bucket LocationConstraint).
Definition put_bucket_acl (Bucket ACL : string) : M unit :=
  remote (PutBucketAcl Bucket ACL) (fun p h => on_put_bucket_acl p h Bucket ACL).
Definition list_buckets : M S3.ListBucketsResult :=
  remote ListBuckets (fun p h => on_list_buckets p h).
Definition upload_fileobj (Fileobj : list Byte.byte) (Bucket Key : string) : M unit :=
  remote (UploadFileobj Fileobj Bucket Key) (fun p h => on_upload_fileobj p h Fileobj Bucket Key).
End s3.

Module route53.
Definition create_hosted_zone (Name CallerReference : string) : M Route53.CreateHostedZoneResult :=
  remote (CreateHostedZone Name CallerReference)
         (fun p h => on_create_hosted_zone p h Name CallerReference).
End route53.

(** ** The parsed arguments *)

(** The [argparse.Namespace] that [parser.parse_args()] returns.  [action] and
    [resource_type] are always attributes of it, [None] standing for Python's
    [None] (no sub-command given).  Every other attribute exists only under
    the sub-parser that declares it: there [None] stands for an attribute
    that is absent, and reading it raises [AttributeError]. *)
Record Namespace := {
  resource_type : option string;
  action : option string;
  instance_type : option string;
  ami : option string;
  instance_id : option string;
  bucket_name : option string;
  public : option bool;
  file : option string;
  zone_name : option string;
  zone_id : option string;
  record : option string
}.

(** [args.name] for an attribute that a sub-parser declares. *)
Definition attr {A} (name : string) (v : option A) : M A :=
  match v with
  | Some a => ret a
  | None => raise (AttributeError name)
  end.

(** ** The parser (lines 11-53) *)

(** The [choices] of the closed arguments. *)
Inductive InstanceTypeChoice := t3_nano | t4g_nano.
Inductive AmiChoice := ubuntu | amazon_linux.
Inductive ManageChoice := start | stop.

Definition instance_type_name (c : InstanceTypeChoice) : string :=
  match c with t3_nano => "t3.nano" | t4g_nano => "t4g.nano" end.

Definition ami_name (c : AmiChoice) : string :=
  match c with ubuntu => "ubuntu" | amazon_linux => "amazon-linux" end.

Definition manage_name (c : ManageChoice) : string :=
  match c with start => "start" | stop => "stop" end.

(** The command lines the parser accepts, one constructor per sub-parser and
    one per selector given without a sub-command. *)
Inductive CommandLine :=
| NoResource
| Ec2
| Ec2Create (instance_type : InstanceTypeChoice) (ami : AmiChoice)
| Ec2Manage (instance_id : string) (action : ManageChoice)
| Ec2List
| S3_
| S3Create (bucket_name : string) (public : bool)
| S3Upload (bucket_name file : string)
| S3List
| Route53_
| Route53Create (zone_name : string)
| Route53Manage (zone_id record : string).

Definition empty_namespace : Namespace :=
  {| resource_type := None; action := None; instance_type := None; ami := None;
     instance_id := None; bucket_name := None; public := None; file := None;
     zone_name := None; zone_id := None; record := None |}.

Definition under (resource : string) (action : option string) : Namespace :=
  {| resource_type := Some resource; action := action; instance_type := None;
     ami := None; instance_id := None; bucket_name := None; public := None;
     file := None; zone_name := None; zone_id := None; record := None |}.

(** The namespace [parse_args] builds.  Each nested [add_subparsers] stores the
    name of the chosen sub-command under [dest='action']; the attributes the
    sub-parser parsed are copied into the namespace after that.  The
    [ec2 manage] sub-parser declares [--action] (line 24), whose destination
    is [action] too, so its value replaces the sub-command name. *)
Definition parse_args (argv : CommandLine) : Namespace :=
  match argv with
  | NoResource => empty_namespace
  | Ec2 => under "ec2" None
  | Ec2Create ty a =>
      {| resource_type := Some "ec2"; action := Some "create";
         instance_type := Some (instance_type_name ty); ami := Some (ami_name a);
         instance_id := None; bucket_name := None; public := None; file := None;
         zone_name := None; zone_id := None; record := None |}
  | Ec2Manage id act =>
      {| resource_type := Some "ec2"; action := Some (manage_name act);
         instance_type := None; ami := None; instance_id := Some id;
         bucket_name := None; public := None; file := None;
         zone_name := None; zone_id := None; record := None |}
  | Ec2List => under "ec2" (Some "list")
  | S3_ => under "s3" None
  | S3Create name pub =>
      {| resource_type := Some "s3"; action := Some "create";
         instance_type := None; ami := None; instance_id := None;
         bucket_name := Some name; public := Some pub; file := None;
         zone_name := None; zone_id := None; record := None |}
  | S3Upload name path =>
      {| resource_type := Some "s3"; action := Some "upload";
         instance_type := None; ami := None; instance_id := None;
         bucket_name := Some name; public := None; file := Some path;
         zone_name := None; zone_id := None; record := None |}
  | S3List => under "s3" (Some "list")
  | Route53_ => under "route53" None
  | Route53Create zone =>
      {| resource_type := Some "route53"; action := Some "create";
         instance_type := None; ami := None; instance_id := None;
         bucket_name := None; public := None; file := None;
         zone_name := Some zone; zone_id := None; record := None |}
  | Route53Manage id rec =>
      {| resource_type := Some "route53"; action := Some "manage";
         instance_type := None; ami := None; instance_id := None;
         bucket_name := None; public := None; file := None;
         zone_name := None; zone_id := Some id; record := Some rec |}
  end.

(** ** handle_ec2_commands (lines 64-103) *)

(** The filter of lines 66 and 100. *)
Definition created_by_cli : list Ec2.Filter :=
  [ {| Ec2.Name := "tag:CreatedByCLI"; Ec2.Values := ["true"] |} ].

(** The tag specification of lines 83-86. *)
Definition ownership_tags : list Ec2.TagSpecification :=
  [ {| Ec2.ResourceType := "instance";
       Ec2.Tags := [ {| Ec2.Key := "CreatedByCLI"; Ec2.Value := "true" |} ] |} ].

(** Line 67: the instances of every reservation whose state is 'running'. *)
Definition running_instances (instances : Ec2.DescribeInstancesResult) : list Ec2.Instance :=
  r ← Ec2.Reservations instances;
  filter (fun i => Ec2.StateName (Ec2.InstanceState i) = "running") (Ec2.Instances r).

(** Lines 73-76: what the local [ami_id] is bound to, [None] when neither
    branch assigns it. *)
Definition ami_id (ami : string) : option string :=
  if decide (ami = "ubuntu") then Some "ami-12345678"
  else if decide (ami = "amazon-linux") then Some "ami-87654321"
  else None.

Definition handle_ec2_commands (args : Namespace) : M unit :=
  if decide (action args = Some "create") then
    instances ← ec2.describe_instances created_by_cli;
    if decide (2 <= length (running_instances instances))%nat then
      print "Error: Cannot create more than 2 running instances."
    else
      ami ← attr "ami" (ami args);
      image ← local "ami_id" (ami_id ami);
      ty ← attr "instance_type" (instance_type args);
      instance ← ec2.run_instances image ty 1 1 ownership_tags;
      created ← first (Ec2.NewInstances instance);
      print ("Created instance " +:+ Ec2.InstanceId created)
  else if decide (action args = Some "manage") then
    instance_id ← attr "instance_id" (instance_id args);
    if decide (action args = Some "start") then
      ec2.start_instances [instance_id];;
      print ("Started instance " +:+ instance_id)
    else if decide (action args = Some "stop") then
      ec2.stop_instances [instance_id];;
      print ("Stopped instance " +:+ instance_id)
    else ret tt
  else if decide (action args = Some "list") then
    instances ← ec2.describe_instances created_by_cli;
    for_each (Ec2.Reservations instances) (fun reservation =>
      for_each (Ec2.Instances reservation) (fun instance =>
        print ("Instance ID: " +:+ Ec2.InstanceId instance +:+ ", State: "
               +:+ Ec2.StateName (Ec2.InstanceState instance))))
  else ret tt.

(** ** handle_s3_commands (lines 105-134) *)

(** The prompt of line 108. *)
Definition confirm_prompt : string :=
  "Are you sure you want to create a public bucket? (yes/no): ".

(** The list comprehension of line 123. *)
Definition bucket_names (buckets : S3.ListBucketsResult) : list string :=
  S3.Name <$> S3.Buckets buckets.

Definition handle_s3_commands (args : Namespace) : M unit :=
  if decide (action args = Some "create") then
    let create : M unit :=
      name ← attr "bucket_name" (bucket_name args);
      s3.create_bucket name "us-west-2";;
      pub ← attr "public" (public args);
      (if pub : bool then
         name ← attr "bucket_name" (bucket_name args);
         s3.put_bucket_acl name "public-read"
       else ret tt);;
      name ← attr "bucket_name" (bucket_name args);
      print ("Created bucket " +:+ name) in
    pub ← attr "public" (public args);
    if pub : bool then
      confirm ← input confirm_prompt;
      if decide (lower confirm ≠ "yes") then
        print "Bucket creation cancelled."
      else create
    else create
  else if decide (action args = Some "upload") then
    buckets ← s3.list_buckets;
    name ← attr "bucket_name" (bucket_name args);
    if decide (name ∉ bucket_names buckets) then
      print ("Bucket " +:+ name +:+ " does not exist or was not created via this CLI.")
    else
      path ← attr "file" (file args);
      file_data ← open_rb path;
      name ← attr "bucket_name" (bucket_name args);
      key ← attr "file" (file args);
      s3.upload_fileobj file_data name key;;
      path ← attr "file" (file args);
      name ← attr "bucket_name" (bucket_name args);
      print ("Uploaded " +:+ path +:+ " to bucket " +:+ name)
  else if decide (action args = Some "list") then
    buckets ← s3.list_buckets;
    for_each (S3.Buckets buckets) (fun bucket =>
      print ("Bucket Name: " +:+ S3.Name bucket))
  else ret tt.

(** ** handle_route53_commands (lines 136-143) *)

Definition handle_route53_commands (args : Namespace) : M unit :=
  if decide (action args = Some "create") then
    name ← attr "zone_name" (zone_name args);
    zone ← attr "zone_name" (zone_name args);
    h ← hash zone;
    response ← route53.create_hosted_zone name (str h);
    zone ← attr "zone_name" (zone_name args);
    print ("Created DNS zone " +:+ zone +:+ ", ID: "
           +:+ Route53.Id (Route53.Zone response))
  else if decide (action args = Some "manage") then
    ret tt
  else ret tt.

(** ** main (lines 10-62) *)

Definition print_help : M unit := fun w => (Returned tt, write Help w).

Definition main (argv : CommandLine) : M unit :=
  let args := parse_args argv in
  if decide (resource_type args = Some "ec2") then handle_ec2_commands args
  else if decide (resource_type args = Some "s3") then handle_s3_commands args
  else if decide (resource_type args = Some "route53") then handle_route53_commands args
  else print_help.

(** ** The hash of str in CPython *)

(** CPython hashes a [str] with SipHash-1-3 keyed by a secret drawn once when
    the process starts: from the operating system's random source, or from
    [PYTHONHASHSEED] when that is set.  This is the function a [World] of a
    real process carries in [str_hash], for strings of ASCII characters. *)
Module PyHash.

Definition u64 (x : Z) : Z := x mod 2 ^ 64.

Definition rotate (x b : Z) : Z :=
  u64 (Z.lor (Z.shiftl x b) (Z.shiftr x (64 - b))).

Definition half_round (a b c d s t : Z) : Z * Z * Z * Z :=
  let a := u64 (a + b) in
  let c := u64 (c + d) in
  let b := Z.lxor (rotate b s) a in
  let d := Z.lxor (rotate d t) c in
  let a := rotate a 32 in
  (a, b, c, d).

Definition single_round (v : Z * Z * Z * Z) : Z * Z * Z * Z :=
  let '(v0, v1, v2, v3) := v in
  let '(v0, v1, v2, v3) := half_round v0 v1 v2 v3 13 16 in
  let '(v2, v1, v0, v3) := half_round v2 v1 v0 v3 17 21 in
  (v0, v1, v2, v3).

(** Little-endian value of a run of bytes. *)
Fixpoint le (bytes : list Z) : Z :=
  match bytes with
  | [] => 0
  | b :: rest => b + 256 * le rest
  end.

Definition absorb_word (v : Z * Z * Z * Z) (mi : Z) : Z * Z * Z * Z :=
  let '(v0, v1, v2, v3) := v in
  let '(v0, v1, v2, v3) := single_round (v0, v1, v2, Z.lxor v3 mi) in
  (Z.lxor v0 mi, v1, v2, v3).

(** The loop over whole 8-byte words; what is left is shorter than 8. *)
Fixpoint absorb (v : Z * Z * Z * Z) (src : list Z) : (Z * Z * Z * Z) * list Z :=
  match src with
  | b0 :: b1 :: b2 :: b3 :: b4 :: b5 :: b6 :: b7 :: rest =>
      absorb (absorb_word v (le [b0; b1; b2; b3; b4; b5; b6; b7])) rest
  | tail => (v, tail)
  end.

Definition siphash13 (k0 k1 : Z) (src : list Z) : Z :=
  let b := u64 (Z.shiftl (Z.of_nat (length src)) 56) in
  let v := (Z.lxor k0 0x736f6d6570736575, Z.lxor k1 0x646f72616e646f6d,
            Z.lxor k0 0x6c7967656e657261, Z.lxor k1 0x7465646279746573) in
  let '(v, tail) := absorb v src in
  let b := Z.lor b (le tail) in
  let '(v0, v1, v2, v3) := absorb_word v b in
  let '(v0, v1, v2, v3) :=
    single_round (single_round (single_round (v0, v1, Z.lxor v2 0xff, v3))) in
  Z.lxor (Z.lxor v0 v1) (Z.lxor v2 v3).

Definition bytes_of (s : string) : list Z :=
  (fun c => Z.of_nat (Ascii.nat_of_ascii c)) <$> String.list_ascii_of_string s.

(** [hash(s)] in a process whose secret holds the keys [k0] and [k1]: the
    empty string hashes to 0, the result is a signed 64-bit integer, and
    -1 is never returned. *)
Definition str_hash (k : Z * Z) (s : string) : Z :=
  let src := bytes_of s in
  match src with
  | [] => 0
  | _ =>
      let x := siphash13 (fst k) (snd k) src in
      let x := if (2 ^ 63 <=? x)%Z then x - 2 ^ 64 else x in
      if (x =? -1)%Z then -2 else x
  end.

(** The secret under [PYTHONHASHSEED=seed]: all zero for seed 0, else the
    bytes of a linear congruential generator on 32-bit integers. *)
Fixpoint lcg_urandom (x : Z) (size : nat) : list Z :=
  match size with
  | O => []
  | S size =>
      let x := (x * 214013 + 2531011) mod 2 ^ 32 in
      Z.land (Z.shiftr x 16) 0xff :: lcg_urandom x size
  end.

Definition seeded (seed : Z) : Z * Z :=
  if (seed =? 0)%Z then (0, 0)
  else let secret := lcg_urandom seed 16 in (le (take 8 secret), le (drop 8 secret)).

End PyHash.

(** ** Observing a run *)

(** What running [m] from the world [w] returns, which remote calls it makes
    and what it writes, in order. *)
Definition outcome {A} (m : M A) (w : World) : Outcome A := (m w).1.

Definition made {A} (m : M A) (w : World) : list Call :=
  drop (length (calls w)) (calls (m w).2).

Definition written {A} (m : M A) (w : World) : list Output :=
  drop (length (terminal w)) (terminal (m w).2).

(** Statements that make no remote call. *)
Definition quiet {A} (m : M A) : Prop := forall w, calls (m w).2 = calls w.

(** The spellings of 'yes' in upper and lower case. *)
Definition approvals : list string :=
  ["yes"; "yeS"; "yEs"; "yES"; "Yes"; "YeS"; "YEs"; "YES"].

(** A creation call carries the ownership tag when one of its tag
    specifications puts CreatedByCLI=true on the instance. *)
Definition carries_ownership_tag (c : Call) : Prop :=
  match c with
  | RunInstances _ _ _ _ specs =>
      ∃ spec, spec ∈ specs ∧ Ec2.ResourceType spec = "instance" ∧
              {| Ec2.Key := "CreatedByCLI"; Ec2.Value := "true" |} ∈ Ec2.Tags spec
  | _ => False
  end.

(** ** A provider to run examples against *)

Definition instance_in (id state : string) : Ec2.Instance :=
  {| Ec2.InstanceId := id; Ec2.InstanceState := {| Ec2.StateName := state |} |}.

(** The answer to a describe call that reports [instances] in one
    reservation, and the answer to a list call that reports [buckets]. *)
Definition reported (instances : list Ec2.Instance) : Ec2.DescribeInstancesResult :=
  {| Ec2.Reservations := [ {| Ec2.Instances := instances |} ] |}.

Definition listed (buckets : list string) : S3.ListBucketsResult :=
  {| S3.Buckets := (fun n => {| S3.Name := n |}) <$> buckets |}.

(** It reports the given instances and buckets whatever the history, accepts
    every call, and names what it creates. *)
Definition canned (instances : list Ec2.Instance) (buckets : list string) : Provider :=
  {| on_describe_instances _ _ := Returned (reported instances);
     on_run_instances _ _ _ _ _ _ :=
       Returned {| Ec2.NewInstances := [instance_in "i-0new" "pending"] |};
     on_start_instances _ _ := Returned tt;
     on_stop_instances _ _ := Returned tt;
     on_create_bucket _ _ _ := Returned tt;
     on_put_bucket_acl _ _ _ := Returned tt;
     on_list_buckets _ := Returned (listed buckets);
     on_upload_fileobj _ _ _ _ := Returned tt;
     on_create_hosted_zone _ _ _ :=
       Returned {| Route53.Zone := {| Route53.Id := "/hostedzone/Z0NEW" |} |} |}.

(** A fresh process: nothing called or written yet, the given lines waiting
    on standard input, one local file, and hash seed [seed]. *)
Definition fresh (p : Provider) (seed : Z) (lines : list string) : World :=
  {| provider := p; str_hash := PyHash.str_hash (PyHash.seeded seed);
     files := {[ "notes.txt" := [Byte.x68; Byte.x69] ]};
     stdin := lines; calls := []; terminal := [] |}.

(** The instances and buckets of the example runs. *)
Definition two_running : list Ec2.Instance :=
  [instance_in "i-0aaa" "running"; instance_in "i-0bbb" "running"].

Definition one_running : list Ec2.Instance :=
  [instance_in "i-0aaa" "running"; instance_in "i-0bbb" "stopped"].

Definition some_buckets : list string := ["reports"; "backups"].

(** Worlds of the example runs: two, then one, running tagged instance; and
    an account with [some_buckets] where [lines] wait on standard input. *)
Definition at_quota : World := fresh (canned two_running []) 0 [].
Definition below_quota : World := fresh (canned one_running []) 0 [].
Definition answering (lines : list string) : World := fresh (canned [] some_buckets) 0 lines.

(** ** What a run may change *)

(** [w'] continues [w]: the provider, the hash and the files are the same,
    the call log and the terminal have only grown at the end, and standard
    input has only lost lines at the front. *)
Definition continues (w w' : World) : Prop :=
  provider w' = provider w /\
  str_hash w' = str_hash w /\
  files w' = files w /\
  calls w `prefix_of` calls w' /\
  terminal w `prefix_of` terminal w' /\
  stdin w' `suffix_of` stdin w.

(** Statements after which the world continues the one they started in. *)
Definition orderly {A} (m : M A) : Prop := forall w, continues w (m w).2.

(** Writing several outputs in a row. *)
Definition writes (os : list Output) (w : World) : World :=
  {| provider := provider w; str_hash := str_hash w; files := files w;
     stdin := stdin w; calls := calls w; terminal := terminal w ++ os |}.

(** The call sequences [handle_ec2_commands] can leave, each with what the
    source tests on the way to it. *)
Inductive ec2_run (args : Namespace) (w : World) : list Call -> Prop :=
| ec2_no_call : ec2_run args w []
| ec2_described :
    action args = Some "create" \/ action args = Some "list" ->
    ec2_run args w [DescribeInstances created_by_cli]
| ec2_created instances family image ty :
    action args = Some "create" ->
    on_describe_instances (provider w) (calls w) created_by_cli = Returned instances ->
    (length (running_instances instances) < 2)%nat ->
    ami args = Some family ->
    ami_id family = Some image ->
    instance_type args = Some ty ->
    ec2_run args w [DescribeInstances created_by_cli;
                    RunInstances image ty 1 1 ownership_tags].

(** The call sequences [handle_s3_commands] can leave. *)
Inductive s3_run (args : Namespace) (w : World) : list Call -> Prop :=
| s3_no_call : s3_run args w []
| s3_created_private name :
    action args = Some "create" ->
    public args = Some false ->
    bucket_name args = Some name ->
    s3_run args w [CreateBucket name "us-west-2"]
| s3_creation_refused name confirm rest e :
    action args = Some "create" ->
    public args = Some true ->
    bucket_name args = Some name ->
    stdin w = confirm :: rest ->
    confirm ∈ approvals ->
    on_create_bucket (provider w) (calls w) name "us-west-2" = Raised e ->
    s3_run args w [CreateBucket name "us-west-2"]
| s3_created_public name confirm rest :
    action args = Some "create" ->
    public args = Some true ->
    bucket_name args = Some name ->
    stdin w = confirm :: rest ->
    confirm ∈ approvals ->
    on_create_bucket (provider w) (calls w) name "us-west-2" = Returned tt ->
    s3_run args w [CreateBucket name "us-west-2"; PutBucketAcl name "public-read"]
| s3_listed :
    action args = Some "upload" \/ action args = Some "list" ->
    s3_run args w [ListBuckets]
| s3_uploaded name path data buckets :
    action args = Some "upload" ->
    bucket_name args = Some name ->
    file args = Some path ->
    on_list_buckets (provider w) (calls w) = Returned buckets ->
    name ∈ bucket_names buckets ->
    files w !! path = Some data ->
    s3_run args w [ListBuckets; UploadFileobj data name path].

(** The lines of the two listings (lines 103 and 134). *)
Definition instance_line (instance : Ec2.Instance) : string :=
  "Instance ID: " +:+ Ec2.InstanceId instance +:+ ", State: "
  +:+ Ec2.StateName (Ec2.InstanceState instance).

Definition bucket_line (bucket : S3.Bucket) : string :=
  "Bucket Name: " +:+ S3.Name bucket.

(** Exceptions whose cause is in the script's own text: reading an attribute
    the namespace lacks, or a local that was never assigned. *)
Definition internal (e : Exception) : bool :=
  match e with
  | AttributeError _ | UnboundLocalError _ => true
  | _ => false
  end.

(** A provider that raises nothing but [ClientError]. *)
Definition raises_client_error {R} (answer : Outcome R) : Prop :=
  match answer with
  | Returned _ => True
  | Raised e => exists detail, e = ClientError detail
  end.

Definition well_behaved (p : Provider) : Prop :=
  (forall h f, raises_client_error (on_describe_instances p h f)) /\
  (forall h i t lo hi tags, raises_client_error (on_run_instances p h i t lo hi tags)) /\
  (forall h ids, raises_client_error (on_start_instances p h ids)) /\
  (forall h ids, raises_client_error (on_stop_instances p h ids)) /\
  (forall h b r, raises_client_error (on_create_bucket p h b r)) /\
  (forall h b a, raises_client_error (on_put_bucket_acl p h b a)) /\
  (forall h, raises_client_error (on_list_buckets p h)) /\
  (forall h d b k, raises_client_error (on_upload_fileobj p h d b k)) /\
  (forall h n r, raises_client_error (on_create_hosted_zone p h n r)).

(** A statement is sound when, run against a provider that raises only
    [ClientError], it raises no exception of the script's own making and
    hands the same provider on. *)
Definition sound {A} (m : M A) : Prop :=
  forall w, well_behaved (provider w) ->
    provider (m w).2 = provider w /\
    forall e, (m w).1 = Raised e -> internal e = false.

(** Statements that read nothing from standard input. *)
Definition silent {A} (m : M A) : Prop := forall w, stdin (m w).2 = stdin w.

(** Command lines whose handler is written to change remote state. *)
Definition may_mutate (argv : CommandLine) : bool :=
  match argv with
  | Ec2Create _ _ | S3Create _ _ | S3Upload _ _ | Route53Create _ => true
  | _ => false
  end.

(** Three stopped instances in two reservations. *)
Definition all_stopped : Ec2.DescribeInstancesResult :=
  {| Ec2.Reservations :=
       [ {| Ec2.Instances := [instance_in "i-0aaa" "stopped"; instance_in "i-0bbb" "stopped"] |};
         {| Ec2.Instances := [instance_in "i-0ccc" "terminated"] |} ] |}.

(** A provider like [canned] but for one answer. *)
Definition refusing_describe (e : Exception) : Provider :=
  {| on_describe_instances _ _ := Raised e;
     on_run_instances := on_run_instances (canned [] []);
     on_start_instances := on_start_instances (canned [] []);
     on_stop_instances := on_stop_instances (canned [] []);
     on_create_bucket := on_create_bucket (canned [] []);
     on_put_bucket_acl := on_put_bucket_acl (canned [] []);
     on_list_buckets := on_list_buckets (canned [] []);
     on_upload_fileobj := on_upload_fileobj (canned [] []);
     on_create_hosted_zone := on_create_hosted_zone (canned [] []) |}.

Definition refusing_list (e : Exception) : Provider :=
  {| on_describe_instances := on_describe_instances (canned [] []);
     on_run_instances := on_run_instances (canned [] []);
     on_start_instances := on_start_instances (canned [] []);
     on_stop_instances := on_stop_instances (canned [] []);
     on_create_bucket := on_create_bucket (canned [] []);
     on_put_bucket_acl := on_put_bucket_acl (canned [] []);
     on_list_buckets _ := Raised e;
     on_upload_fileobj := on_upload_fileobj (canned [] []);
     on_create_hosted_zone := on_create_hosted_zone (canned [] []) |}.

(** A namespace for [ec2 create] built without the parser's [choices]. *)
Definition unchecked_create (ty family : string) : Namespace :=
  {| resource_type := Some "ec2"; action := Some "create";
     instance_type := Some ty; ami := Some family;
     instance_id := None; bucket_name := None; public := None; file := None;
     zone_name := None; zone_id := None; record := None |}.

Definition refusing_acl (e : Exception) : Provider :=
  {| on_describe_instances := on_describe_instances (canned [] []);
     on_run_instances := on_run_instances (canned [] []);
     on_start_instances := on_start_instances (canned [] []);
     on_stop_instances := on_stop_instances (canned [] []);
     on_create_bucket := on_create_bucket (canned [] []);
     on_put_bucket_acl _ _ _ := Raised e;
     on_list_buckets := on_list_buckets (canned [] []);
     on_upload_fileobj := on_upload_fileobj (canned [] []);
     on_create_hosted_zone := on_create_hosted_zone (canned [] []) |}.

Definition describing (result : Ec2.DescribeInstancesResult)
    (created : list Ec2.Instance) : Provider :=
  {| on_describe_instances _ _ := Returned result;
     on_run_instances _ _ _ _ _ _ := Returned {| Ec2.NewInstances := created |};
     on_start_instances := on_start_instances (canned [] []);
     on_stop_instances := on_stop_instances (canned [] []);
     on_create_bucket := on_create_bucket (canned [] []);
     on_put_bucket_acl := on_put_bucket_acl (canned [] []);
     on_list_buckets := on_list_buckets (canned [] []);
     on_upload_fileobj := on_upload_fileobj (canned [] []);
     on_create_hosted_zone := on_create_hosted_zone (canned [] []) |}.

(** * Properties *)

(** ** Running statements *)

Lemma run_bind {A B} (m : M A) (k : A -> M B) (w : World) :
  mbind (M := M) k m w =
    match m w with
    | (Returned a, w') => k a w'
    | (Raised e, w') => (Raised e, w')
    end.
Proof. reflexivity. Qed.

Lemma run_remote {R} (c : Call) (answer : Provider -> list Call -> Outcome R) (w : World) :
  remote c answer w = (answer (provider w) (calls w), log_call c w).
Proof. reflexivity. Qed.

(** One step of a run whose first statement reads an attribute, a local or a
    list head. *)
Ltac step := rewrite run_bind; cbn [attr local first ret raise].

Lemma made_nothing {A} (m : M A) (w w' : World) (o : Outcome A) :
  m w = (o, w') -> calls w' = calls w -> made m w = [].
Proof.
  intros Hrun Hcalls. unfold made. rewrite Hrun. simpl.
  rewrite Hcalls. apply drop_all.
Qed.

Lemma made_suffix {A} (m : M A) (w w' : World) (o : Outcome A) (cs : list Call) :
  m w = (o, w') -> calls w' = calls w ++ cs -> made m w = cs.
Proof.
  intros Hrun Hcalls. unfold made. rewrite Hrun. simpl.
  rewrite Hcalls. apply drop_app_length.
Qed.

Lemma written_suffix {A} (m : M A) (w w' : World) (o : Outcome A) (os : list Output) :
  m w = (o, w') -> terminal w' = terminal w ++ os -> written m w = os.
Proof.
  intros Hrun Hterm. unfold written. rewrite Hrun. simpl.
  rewrite Hterm. apply drop_app_length.
Qed.

(** ** ComputeInstance/Create *)

Lemma ec2_create_at_quota (args : Namespace) (w : World)
    (instances : Ec2.DescribeInstancesResult) :
  action args = Some "create" ->
  on_describe_instances (provider w) (calls w) created_by_cli = Returned instances ->
  (2 <= length (running_instances instances))%nat ->
  handle_ec2_commands args w =
    (Returned tt,
     write (Printed "Error: Cannot create more than 2 running instances.")
           (log_call (DescribeInstances created_by_cli) w)).
Proof.
  intros Haction Hfetch Hquota. unfold handle_ec2_commands.
  rewrite decide_True by exact Haction.
  rewrite run_bind. unfold ec2.describe_instances. rewrite run_remote, Hfetch.
  rewrite decide_True by exact Hquota. reflexivity.
Qed.

(** C1: a Create command that fetches at least two running tagged instances
    returns normally after printing the quota message; the describe call is
    the only remote call it makes, so no mutating call, and in particular no
    run_instances, is made. *)
Theorem create_rejected_at_quota (args : Namespace) (w : World)
    (instances : Ec2.DescribeInstancesResult) :
  action args = Some "create" ->
  on_describe_instances (provider w) (calls w) created_by_cli = Returned instances ->
  (2 <= length (running_instances instances))%nat ->
  outcome (handle_ec2_commands args) w = Returned tt /\
  written (handle_ec2_commands args) w =
    [Printed "Error: Cannot create more than 2 running instances."] /\
  made (handle_ec2_commands args) w = [DescribeInstances created_by_cli] /\
  filter (fun c => mutating c = true) (made (handle_ec2_commands args) w) = [].
Proof.
  intros Haction Hfetch Hquota.
  pose proof (ec2_create_at_quota args w instances Haction Hfetch Hquota) as Hrun.
  assert (Hmade : made (handle_ec2_commands args) w = [DescribeInstances created_by_cli])
    by (eapply made_suffix; [exact Hrun | reflexivity]).
  split; [unfold outcome; rewrite Hrun; reflexivity |].
  split; [eapply written_suffix; [exact Hrun | reflexivity] |].
  split; [exact Hmade |].
  rewrite Hmade. reflexivity.
Qed.

Lemma create_rejected_at_quota_witness :
  (action (parse_args (Ec2Create t3_nano ubuntu)) = Some "create" /\
   on_describe_instances (provider at_quota) (calls at_quota) created_by_cli =
     Returned (reported two_running) /\
   (2 <= length (running_instances (reported two_running)))%nat) /\
  (outcome (handle_ec2_commands (parse_args (Ec2Create t3_nano ubuntu))) at_quota
     = Returned tt /\
   written (handle_ec2_commands (parse_args (Ec2Create t3_nano ubuntu))) at_quota =
     [Printed "Error: Cannot create more than 2 running instances."] /\
   made (handle_ec2_commands (parse_args (Ec2Create t3_nano ubuntu))) at_quota =
     [DescribeInstances created_by_cli] /\
   filter (fun c => mutating c = true)
          (made (handle_ec2_commands (parse_args (Ec2Create t3_nano ubuntu))) at_quota) = []).
Proof.
  assert (Hquota : (2 <= length (running_instances (reported two_running)))%nat)
    by (vm_compute; lia).
  split; [split; [reflexivity | split; [reflexivity | exact Hquota]] |].
  apply (create_rejected_at_quota
           (parse_args (Ec2Create t3_nano ubuntu)) at_quota (reported two_running));
    [reflexivity | reflexivity | exact Hquota].
Defined.

Lemma ami_id_choice (a : AmiChoice) :
  ami_id (ami_name a) =
    Some (match a with ubuntu => "ami-12345678" | amazon_linux => "ami-87654321" end).
Proof. destruct a; reflexivity. Qed.

Lemma ec2_create_below_quota (args : Namespace) (w : World)
    (instances : Ec2.DescribeInstancesResult) (family image ty : string) :
  action args = Some "create" ->
  ami args = Some family ->
  ami_id family = Some image ->
  instance_type args = Some ty ->
  on_describe_instances (provider w) (calls w) created_by_cli = Returned instances ->
  (length (running_instances instances) < 2)%nat ->
  handle_ec2_commands args w =
    let w1 := log_call (DescribeInstances created_by_cli) w in
    let w2 := log_call (RunInstances image ty 1 1 ownership_tags) w1 in
    match on_run_instances (provider w) (calls w1) image ty 1 1 ownership_tags with
    | Returned instance =>
        match Ec2.NewInstances instance with
        | created :: _ =>
            (Returned tt, write (Printed ("Created instance " +:+ Ec2.InstanceId created)) w2)
        | [] => (Raised IndexError, w2)
        end
    | Raised e => (Raised e, w2)
    end.
Proof.
  intros Haction Hami Himage Hty Hfetch Hquota. unfold handle_ec2_commands.
  rewrite decide_True by exact Haction.
  rewrite run_bind. unfold ec2.describe_instances. rewrite run_remote, Hfetch.
  rewrite decide_False by lia.
  rewrite Hami, Hty.
  step. rewrite Himage.
  repeat (rewrite run_bind; cbn [attr ret local first]).
  unfold ec2.run_instances. rewrite run_remote. cbn [provider log_call].
  destruct (on_run_instances _ _ _ _ _ _ _) as [instance | e]; [| reflexivity].
  rewrite run_bind. destruct (Ec2.NewInstances instance); reflexivity.
Qed.

Lemma ownership_tags_carried (image ty : string) (lo hi : Z) :
  carries_ownership_tag (RunInstances image ty lo hi ownership_tags).
Proof.
  simpl. eexists. split; [apply list_elem_of_here |].
  split; [reflexivity | apply list_elem_of_here].
Qed.

(** C7: a Create command that fetches fewer than two running tagged instances
    makes the creation call, for the image of the chosen family and with the
    CreatedByCLI=true tag on the instance; when the provider answers with the
    new instance, its identifier is printed and the command returns. *)
Theorem create_below_quota_tags_and_reports (args : Namespace) (w : World)
    (instances : Ec2.DescribeInstancesResult) (family : AmiChoice) (ty : string) :
  action args = Some "create" ->
  ami args = Some (ami_name family) ->
  instance_type args = Some ty ->
  on_describe_instances (provider w) (calls w) created_by_cli = Returned instances ->
  (length (running_instances instances) < 2)%nat ->
  exists image,
    ami_id (ami_name family) = Some image /\
    made (handle_ec2_commands args) w =
      [DescribeInstances created_by_cli; RunInstances image ty 1 1 ownership_tags] /\
    carries_ownership_tag (RunInstances image ty 1 1 ownership_tags) /\
    forall created others,
      on_run_instances (provider w) (calls w ++ [DescribeInstances created_by_cli])
                       image ty 1 1 ownership_tags
        = Returned {| Ec2.NewInstances := created :: others |} ->
      outcome (handle_ec2_commands args) w = Returned tt /\
      written (handle_ec2_commands args) w =
        [Printed ("Created instance " +:+ Ec2.InstanceId created)].
Proof.
  intros Haction Hami Hty Hfetch Hquota.
  pose proof (ami_id_choice family) as Himage.
  eexists. split; [exact Himage |].
  pose proof (ec2_create_below_quota args w instances _ _ ty
                Haction Hami Himage Hty Hfetch Hquota) as Hrun.
  cbn zeta in Hrun. cbn [calls log_call] in Hrun.
  split; [| split; [apply ownership_tags_carried |]].
  - destruct (on_run_instances _ _ _ _ _ _ _) as [instance | e];
      [destruct (Ec2.NewInstances instance) |];
      (eapply made_suffix; [exact Hrun |]);
      cbn [calls write log_call]; rewrite <- app_assoc; reflexivity.
  - intros created others Hanswer. rewrite Hanswer in Hrun. cbn [Ec2.NewInstances] in Hrun.
    split; [unfold outcome; rewrite Hrun; reflexivity |].
    eapply written_suffix; [exact Hrun | reflexivity].
Qed.

Lemma create_below_quota_tags_and_reports_witness :
  (action (parse_args (Ec2Create t3_nano ubuntu)) = Some "create" /\
   ami (parse_args (Ec2Create t3_nano ubuntu)) = Some (ami_name ubuntu) /\
   instance_type (parse_args (Ec2Create t3_nano ubuntu)) = Some "t3.nano" /\
   on_describe_instances (provider below_quota) (calls below_quota) created_by_cli =
     Returned (reported one_running) /\
   (length (running_instances (reported one_running)) < 2)%nat) /\
  exists image,
    ami_id (ami_name ubuntu) = Some image /\
    made (handle_ec2_commands (parse_args (Ec2Create t3_nano ubuntu))) below_quota =
      [DescribeInstances created_by_cli; RunInstances image "t3.nano" 1 1 ownership_tags] /\
    carries_ownership_tag (RunInstances image "t3.nano" 1 1 ownership_tags) /\
    forall created others,
      on_run_instances (provider below_quota)
                       (calls below_quota ++ [DescribeInstances created_by_cli])
                       image "t3.nano" 1 1 ownership_tags
        = Returned {| Ec2.NewInstances := created :: others |} ->
      outcome (handle_ec2_commands (parse_args (Ec2Create t3_nano ubuntu))) below_quota
        = Returned tt /\
      written (handle_ec2_commands (parse_args (Ec2Create t3_nano ubuntu))) below_quota =
        [Printed ("Created instance " +:+ Ec2.InstanceId created)].
Proof.
  assert (Hquota : (length (running_instances (reported one_running)) < 2)%nat)
    by (vm_compute; lia).
  split; [repeat (split; [reflexivity |]); exact Hquota |].
  apply (create_below_quota_tags_and_reports
           (parse_args (Ec2Create t3_nano ubuntu)) below_quota (reported one_running)
           ubuntu "t3.nano");
    [reflexivity | reflexivity | reflexivity | reflexivity | exact Hquota].
Defined.

(** The run of the example above, in full. *)
Example create_below_quota_run :
  outcome (main (Ec2Create t3_nano ubuntu)) below_quota = Returned tt /\
  made (main (Ec2Create t3_nano ubuntu)) below_quota =
    [DescribeInstances created_by_cli;
     RunInstances "ami-12345678" "t3.nano" 1 1 ownership_tags] /\
  written (main (Ec2Create t3_nano ubuntu)) below_quota =
    [Printed "Created instance i-0new"].
Proof. repeat split; vm_compute; reflexivity. Qed.


(** ** Every run of handle_ec2_commands *)

Lemma quiet_print (line : string) : quiet (print line).
Proof. intros w. reflexivity. Qed.

Lemma quiet_for_each {A} (xs : list A) (body : A -> M unit) :
  (forall x, quiet (body x)) -> quiet (for_each xs body).
Proof.
  intros Hbody. induction xs as [| x rest IH]; intros w; [reflexivity |].
  cbn [for_each]. rewrite run_bind.
  specialize (Hbody x w). destruct (body x w) as [[[] | e] w1]; cbn [snd] in *.
  - rewrite IH. exact Hbody.
  - exact Hbody.
Qed.

Lemma made_of_calls {A} (m : M A) (w : World) (cs : list Call) :
  calls (m w).2 = calls w ++ cs -> made m w = cs.
Proof. intros Hcalls. unfold made. rewrite Hcalls. apply drop_app_length. Qed.

(** Whatever the arguments and the world, the handler makes no call, or the
    describe call alone, or the describe call followed by one creation call
    built from the arguments. *)
Lemma handle_ec2_log (args : Namespace) (w : World) :
  calls (handle_ec2_commands args w).2 = calls w \/
  calls (handle_ec2_commands args w).2 = calls w ++ [DescribeInstances created_by_cli] \/
  exists family image ty,
    ami args = Some family /\ ami_id family = Some image /\
    instance_type args = Some ty /\
    calls (handle_ec2_commands args w).2 =
      calls w ++ [DescribeInstances created_by_cli;
                  RunInstances image ty 1 1 ownership_tags].
Proof.
  unfold handle_ec2_commands.
  destruct (decide (action args = Some "create")) as [Hcreate | Hcreate].
  - rewrite run_bind. unfold ec2.describe_instances. rewrite run_remote.
    destruct (on_describe_instances _ _ _) as [instances | e].
    2:{ right; left. reflexivity. }
    destruct (decide (2 <= length (running_instances instances))%nat).
    { right; left. reflexivity. }
    destruct (ami args) as [family |] eqn:Hami.
    2:{ right; left. reflexivity. }
    step.
    destruct (ami_id family) as [image |] eqn:Himage.
    2:{ right; left. reflexivity. }
    step.
    destruct (instance_type args) as [ty |] eqn:Hty.
    2:{ right; left. reflexivity. }
    step.
    right; right. exists family, image, ty.
    split; [reflexivity |]. split; [exact Himage |]. split; [reflexivity |].
    rewrite run_bind. unfold ec2.run_instances. rewrite run_remote.
    destruct (on_run_instances _ _ _ _ _ _ _) as [instance | e].
    + rewrite run_bind. destruct (Ec2.NewInstances instance);
        cbn [first ret raise snd print write log_call calls];
        rewrite <- app_assoc; reflexivity.
    + cbn [snd log_call calls]. rewrite <- app_assoc. reflexivity.
  - destruct (decide (action args = Some "manage")) as [Hmanage | Hmanage].
    + left. destruct (instance_id args) as [id |]; [| reflexivity].
      step.
      rewrite decide_False by congruence. rewrite decide_False by congruence.
      reflexivity.
    + destruct (decide (action args = Some "list")) as [Hlist | Hlist].
      * right; left.
        rewrite run_bind. unfold ec2.describe_instances. rewrite run_remote.
        destruct (on_describe_instances _ _ _) as [instances | e]; [| reflexivity].
        rewrite quiet_for_each; [reflexivity |].
        intros reservation. apply quiet_for_each. intros instance. apply quiet_print.
      * left. reflexivity.
Qed.

Lemma handle_ec2_calls (args : Namespace) (w : World) :
  made (handle_ec2_commands args) w = [] \/
  made (handle_ec2_commands args) w = [DescribeInstances created_by_cli] \/
  exists family image ty,
    ami args = Some family /\ ami_id family = Some image /\
    instance_type args = Some ty /\
    made (handle_ec2_commands args) w =
      [DescribeInstances created_by_cli; RunInstances image ty 1 1 ownership_tags].
Proof.
  destruct (handle_ec2_log args w)
    as [Hlog | [Hlog | (family & image & ty & Hami & Himage & Hty & Hlog)]].
  - left. apply made_of_calls. rewrite app_nil_r. exact Hlog.
  - right; left. apply made_of_calls. exact Hlog.
  - right; right. exists family, image, ty.
    split; [exact Hami |]. split; [exact Himage |]. split; [exact Hty |].
    apply made_of_calls. exact Hlog.
Qed.

Lemma handle_ec2_never_starts_or_stops (args : Namespace) (w : World) :
  filter (fun c => is_start_stop c = true) (made (handle_ec2_commands args) w) = [].
Proof.
  destruct (handle_ec2_calls args w)
    as [Hmade | [Hmade | (family & image & ty & _ & _ & _ & Hmade)]];
    rewrite Hmade; reflexivity.
Qed.

(** C8: 'ubuntu' and 'amazon-linux' each resolve to one fixed image
    identifier; the mapping is defined on exactly the two enumerated
    families; and every creation call the handler makes, whatever the
    arguments and the world, carries the identifier the mapping gives for
    the family in the arguments. *)
Theorem image_selection_fixed :
  ami_id "ubuntu" = Some "ami-12345678" /\
  ami_id "amazon-linux" = Some "ami-87654321" /\
  (forall family, is_Some (ami_id family) <-> exists choice, family = ami_name choice) /\
  (forall args w image ty lo hi tags,
     RunInstances image ty lo hi tags ∈ made (handle_ec2_commands args) w ->
     exists family, ami args = Some family /\ ami_id family = Some image).
Proof.
  split; [reflexivity |]. split; [reflexivity |]. split.
  - intros family. split.
    + intros [image Himage]. unfold ami_id in Himage.
      destruct (decide (family = "ubuntu")) as [-> | _]; [exists ubuntu; reflexivity |].
      destruct (decide (family = "amazon-linux")) as [-> | _];
        [exists amazon_linux; reflexivity | discriminate].
    + intros [choice ->]. rewrite ami_id_choice. eexists. reflexivity.
  - intros args w image ty lo hi tags Hin.
    destruct (handle_ec2_calls args w)
      as [Hmade | [Hmade | (family & image' & ty' & Hami & Himage & _ & Hmade)]];
      rewrite Hmade in Hin.
    + inversion Hin.
    + apply list_elem_of_singleton in Hin. discriminate.
    + exists family. split; [exact Hami |].
      apply elem_of_cons in Hin as [Hin | Hin]; [discriminate |].
      apply list_elem_of_singleton in Hin. congruence.
Qed.

(** ** ComputeInstance/StartStop *)

(** C4 (the code departs from it): for every [ec2 manage] command line the
    parser stores the value of --action over the sub-command name, so the
    handler matches none of its branches and the run leaves the world as it
    was, with no start or stop call and nothing printed.  No other namespace
    helps: for every namespace and world the handler makes neither a start
    nor a stop call. *)
Theorem manage_never_starts_or_stops :
  (forall (instance_id : string) (choice : ManageChoice) (w : World),
     main (Ec2Manage instance_id choice) w = (Returned tt, w)) /\
  (forall (args : Namespace) (w : World),
     filter (fun c => is_start_stop c = true) (made (handle_ec2_commands args) w) = []).
Proof.
  split.
  - intros instance_id choice w. destruct choice; reflexivity.
  - apply handle_ec2_never_starts_or_stops.
Qed.

(** ** StorageBucket/Create *)

Lemma run_input (prompt line : string) (rest : list string) (w : World) :
  stdin w = line :: rest ->
  input prompt w = (Returned line, set_stdin rest (write (Prompted prompt) w)).
Proof. intros Hin. unfold input. rewrite Hin. reflexivity. Qed.

Lemma s3_create_public_declined (args : Namespace) (w : World)
    (confirm : string) (rest : list string) :
  action args = Some "create" ->
  public args = Some true ->
  stdin w = confirm :: rest ->
  lower confirm <> "yes" ->
  handle_s3_commands args w =
    (Returned tt,
     write (Printed "Bucket creation cancelled.")
           (set_stdin rest (write (Prompted confirm_prompt) w))).
Proof.
  intros Haction Hpublic Hin Hno. unfold handle_s3_commands.
  rewrite decide_True by exact Haction.
  rewrite Hpublic. step.
  rewrite run_bind, (run_input _ _ _ _ Hin).
  rewrite decide_True by exact Hno. reflexivity.
Qed.

Lemma s3_create_public_confirmed (args : Namespace) (w : World)
    (confirm name : string) (rest : list string) :
  action args = Some "create" ->
  public args = Some true ->
  bucket_name args = Some name ->
  stdin w = confirm :: rest ->
  lower confirm = "yes" ->
  handle_s3_commands args w =
    let w1 := set_stdin rest (write (Prompted confirm_prompt) w) in
    let w2 := log_call (CreateBucket name "us-west-2") w1 in
    let w3 := log_call (PutBucketAcl name "public-read") w2 in
    match on_create_bucket (provider w) (calls w) name "us-west-2" with
    | Returned _ =>
        match on_put_bucket_acl (provider w) (calls w2) name "public-read" with
        | Returned _ => (Returned tt, write (Printed ("Created bucket " +:+ name)) w3)
        | Raised e => (Raised e, w3)
        end
    | Raised e => (Raised e, w2)
    end.
Proof.
  intros Haction Hpublic Hname Hin Hyes. unfold handle_s3_commands.
  rewrite decide_True by exact Haction.
  rewrite Hpublic, Hname. step.
  rewrite run_bind, (run_input _ _ _ _ Hin).
  rewrite decide_False by (intros Hno; exact (Hno Hyes)).
  step.
  rewrite run_bind. unfold s3.create_bucket. rewrite run_remote.
  cbn [provider calls set_stdin write log_call].
  destruct (on_create_bucket _ _ _ _) as [[] | e]; [| reflexivity].
  step.
  rewrite run_bind, run_bind; cbn [attr ret].
  unfold s3.put_bucket_acl. rewrite run_remote.
  cbn [provider calls set_stdin write log_call].
  destruct (on_put_bucket_acl _ _ _ _) as [[] | e]; reflexivity.
Qed.

Lemma lower_ascii_letter (c l : Ascii.ascii) :
  (97 <= Ascii.nat_of_ascii l <= 122)%nat ->
  lower_ascii c = l ->
  c = l \/ c = Ascii.ascii_of_nat (Ascii.nat_of_ascii l - 32).
Proof.
  intros Hl <-. unfold lower_ascii in *.
  destruct ((65 <=? Ascii.nat_of_ascii c)%nat && (Ascii.nat_of_ascii c <=? 90)%nat) eqn:Hup.
  - right. apply andb_prop in Hup as [Hlo Hhi].
    apply Nat.leb_le in Hlo. apply Nat.leb_le in Hhi.
    rewrite Ascii.nat_ascii_embedding by lia.
    replace (Ascii.nat_of_ascii c + 32 - 32)%nat with (Ascii.nat_of_ascii c) by lia.
    symmetry. apply Ascii.ascii_nat_embedding.
  - left. reflexivity.
Qed.

(** The answers line 109 takes for approval are the eight spellings of
    'yes' in upper and lower case, and nothing else. *)
Lemma lower_yes (confirm : string) :
  lower confirm = "yes" <-> confirm ∈ approvals.
Proof.
  split.
  - destruct confirm as [| c1 [| c2 [| c3 [| c4 rest]]]]; try discriminate.
    cbn [lower]. intros Heq. injection Heq as H1 H2 H3.
    apply lower_ascii_letter in H1; [| vm_compute; lia].
    apply lower_ascii_letter in H2; [| vm_compute; lia].
    apply lower_ascii_letter in H3; [| vm_compute; lia].
    unfold approvals.
    destruct H1 as [-> | ->], H2 as [-> | ->], H3 as [-> | ->]; vm_compute;
      repeat first [apply list_elem_of_here | apply list_elem_of_further].
  - unfold approvals. intros Hin.
    repeat (apply elem_of_cons in Hin as [-> | Hin]; [reflexivity |]).
    inversion Hin.
Qed.

(** C2: a public Create whose confirmation line is not one of the spellings
    of 'yes' makes no remote call at all, not even create-bucket; it prints
    the cancellation line after the prompt and returns normally. *)
Theorem public_create_declined_aborts (args : Namespace) (w : World)
    (confirm : string) (rest : list string) :
  action args = Some "create" ->
  public args = Some true ->
  stdin w = confirm :: rest ->
  confirm ∉ approvals ->
  outcome (handle_s3_commands args) w = Returned tt /\
  made (handle_s3_commands args) w = [] /\
  written (handle_s3_commands args) w =
    [Prompted confirm_prompt; Printed "Bucket creation cancelled."].
Proof.
  intros Haction Hpublic Hin Hno.
  assert (Hlower : lower confirm <> "yes") by (rewrite lower_yes; exact Hno).
  pose proof (s3_create_public_declined args w confirm rest Haction Hpublic Hin Hlower)
    as Hrun.
  split; [unfold outcome; rewrite Hrun; reflexivity |].
  split; [eapply made_nothing; [exact Hrun | reflexivity] |].
  eapply written_suffix; [exact Hrun |].
  cbn [terminal write set_stdin]. rewrite <- app_assoc. reflexivity.
Qed.

Lemma not_an_approval (confirm : string) : lower confirm <> "yes" -> confirm ∉ approvals.
Proof. intros Hno Hin. apply Hno. apply lower_yes. exact Hin. Qed.

Lemma public_create_declined_aborts_witness :
  (action (parse_args (S3Create "site-assets" true)) = Some "create" /\
   public (parse_args (S3Create "site-assets" true)) = Some true /\
   stdin (answering ["no"]) = ["no"] /\
   "no" ∉ approvals) /\
  (outcome (handle_s3_commands (parse_args (S3Create "site-assets" true))) (answering ["no"])
     = Returned tt /\
   made (handle_s3_commands (parse_args (S3Create "site-assets" true))) (answering ["no"])
     = [] /\
   written (handle_s3_commands (parse_args (S3Create "site-assets" true))) (answering ["no"])
     = [Prompted confirm_prompt; Printed "Bucket creation cancelled."]).
Proof.
  assert (Hno : "no" ∉ approvals) by (apply not_an_approval; vm_compute; discriminate).
  split; [repeat (split; [reflexivity |]); exact Hno |].
  apply (public_create_declined_aborts
           (parse_args (S3Create "site-assets" true)) (answering ["no"]) "no" []);
    [reflexivity | reflexivity | reflexivity | exact Hno].
Defined.

(** 'y' and the empty line decline as well. *)
Example declined_by_y :
  outcome (main (S3Create "site-assets" true)) (answering ["y"]) = Returned tt /\
  made (main (S3Create "site-assets" true)) (answering ["y"]) = [] /\
  written (main (S3Create "site-assets" true)) (answering ["y"]) =
    [Prompted confirm_prompt; Printed "Bucket creation cancelled."].
Proof. repeat split; vm_compute; reflexivity. Qed.

Example declined_by_empty_line :
  outcome (main (S3Create "site-assets" true)) (answering [""]) = Returned tt /\
  made (main (S3Create "site-assets" true)) (answering [""]) = [] /\
  written (main (S3Create "site-assets" true)) (answering [""]) =
    [Prompted confirm_prompt; Printed "Bucket creation cancelled."].
Proof. repeat split; vm_compute; reflexivity. Qed.

(** C3: a public Create confirmed with 'yes' in any case makes, once the
    provider accepts create-bucket, exactly two remote calls: create-bucket at
    us-west-2, then the public-read ACL on the same bucket name. *)
Theorem public_create_confirmed_two_calls (args : Namespace) (w : World)
    (confirm name : string) (rest : list string) :
  action args = Some "create" ->
  public args = Some true ->
  bucket_name args = Some name ->
  stdin w = confirm :: rest ->
  confirm ∈ approvals ->
  on_create_bucket (provider w) (calls w) name "us-west-2" = Returned tt ->
  made (handle_s3_commands args) w =
    [CreateBucket name "us-west-2"; PutBucketAcl name "public-read"].
Proof.
  intros Haction Hpublic Hname Hin Hyes Hcreated.
  apply lower_yes in Hyes.
  pose proof (s3_create_public_confirmed args w confirm name rest
                Haction Hpublic Hname Hin Hyes) as Hrun.
  cbn zeta in Hrun. rewrite Hcreated in Hrun.
  destruct (on_put_bucket_acl _ _ _ _) as [[] | e];
    (eapply made_suffix; [exact Hrun |]);
    cbn [calls write log_call set_stdin]; rewrite <- app_assoc; reflexivity.
Qed.

Lemma public_create_confirmed_two_calls_witness :
  (action (parse_args (S3Create "site-assets" true)) = Some "create" /\
   public (parse_args (S3Create "site-assets" true)) = Some true /\
   bucket_name (parse_args (S3Create "site-assets" true)) = Some "site-assets" /\
   stdin (answering ["YES"]) = ["YES"] /\
   "YES" ∈ approvals /\
   on_create_bucket (provider (answering ["YES"])) (calls (answering ["YES"]))
                    "site-assets" "us-west-2" = Returned tt) /\
  made (handle_s3_commands (parse_args (S3Create "site-assets" true))) (answering ["YES"]) =
    [CreateBucket "site-assets" "us-west-2"; PutBucketAcl "site-assets" "public-read"].
Proof.
  assert (Hyes : "YES" ∈ approvals) by (apply lower_yes; reflexivity).
  split; [repeat (split; [first [reflexivity | exact Hyes] |]); reflexivity |].
  apply (public_create_confirmed_two_calls
           (parse_args (S3Create "site-assets" true)) (answering ["YES"])
           "YES" "site-assets" []);
    [reflexivity | reflexivity | reflexivity | reflexivity | exact Hyes | reflexivity].
Defined.

(** When the provider refuses create-bucket the exception leaves the handler
    at once: the ACL call is not made. *)
Lemma public_create_stops_when_creation_fails (args : Namespace) (w : World)
    (confirm name : string) (rest : list string) (e : Exception) :
  action args = Some "create" ->
  public args = Some true ->
  bucket_name args = Some name ->
  stdin w = confirm :: rest ->
  confirm ∈ approvals ->
  on_create_bucket (provider w) (calls w) name "us-west-2" = Raised e ->
  outcome (handle_s3_commands args) w = Raised e /\
  made (handle_s3_commands args) w = [CreateBucket name "us-west-2"].
Proof.
  intros Haction Hpublic Hname Hin Hyes Hrefused.
  apply lower_yes in Hyes.
  pose proof (s3_create_public_confirmed args w confirm name rest
                Haction Hpublic Hname Hin Hyes) as Hrun.
  cbn zeta in Hrun. rewrite Hrefused in Hrun.
  split; [unfold outcome; rewrite Hrun; reflexivity |].
  eapply made_suffix; [exact Hrun | reflexivity].
Qed.

(** ** StorageBucket/Upload *)

Lemma s3_upload_absent (args : Namespace) (w : World) (name : string)
    (buckets : S3.ListBucketsResult) :
  action args = Some "upload" ->
  bucket_name args = Some name ->
  on_list_buckets (provider w) (calls w) = Returned buckets ->
  name ∉ bucket_names buckets ->
  handle_s3_commands args w =
    (Returned tt,
     write (Printed ("Bucket " +:+ name
                     +:+ " does not exist or was not created via this CLI."))
           (log_call ListBuckets w)).
Proof.
  intros Haction Hname Hlist Habsent. unfold handle_s3_commands.
  rewrite decide_False by (rewrite Haction; discriminate).
  rewrite decide_True by exact Haction.
  rewrite run_bind. unfold s3.list_buckets. rewrite run_remote, Hlist.
  rewrite Hname. step.
  rewrite decide_True by exact Habsent. reflexivity.
Qed.

Lemma s3_upload_present (args : Namespace) (w : World) (name path : string)
    (data : list Byte.byte) (buckets : S3.ListBucketsResult) :
  action args = Some "upload" ->
  bucket_name args = Some name ->
  file args = Some path ->
  on_list_buckets (provider w) (calls w) = Returned buckets ->
  name ∈ bucket_names buckets ->
  files w !! path = Some data ->
  handle_s3_commands args w =
    let w1 := log_call ListBuckets w in
    let w2 := log_call (UploadFileobj data name path) w1 in
    match on_upload_fileobj (provider w) (calls w1) data name path with
    | Returned _ =>
        (Returned tt, write (Printed ("Uploaded " +:+ path +:+ " to bucket " +:+ name)) w2)
    | Raised e => (Raised e, w2)
    end.
Proof.
  intros Haction Hname Hfile Hlist Hpresent Hdata. unfold handle_s3_commands.
  rewrite decide_False by (rewrite Haction; discriminate).
  rewrite decide_True by exact Haction.
  rewrite run_bind. unfold s3.list_buckets. rewrite run_remote, Hlist.
  rewrite Hname, Hfile. step.
  rewrite decide_False by (intros Habsent; exact (Habsent Hpresent)).
  step.
  rewrite run_bind. unfold open_rb. cbn [files log_call]. rewrite Hdata.
  do 3 step.
  unfold s3.upload_fileobj. rewrite run_remote. cbn [provider calls log_call].
  destruct (on_upload_fileobj _ _ _ _ _) as [[] | e]; reflexivity.
Qed.

(** C5: an Upload whose bucket name is not in the bucket list just fetched
    prints the not-found line and returns; the list call is the only remote
    call, so no upload call is made. *)
Theorem upload_to_absent_bucket_rejected (args : Namespace) (w : World)
    (name : string) (buckets : S3.ListBucketsResult) :
  action args = Some "upload" ->
  bucket_name args = Some name ->
  on_list_buckets (provider w) (calls w) = Returned buckets ->
  name ∉ bucket_names buckets ->
  outcome (handle_s3_commands args) w = Returned tt /\
  written (handle_s3_commands args) w =
    [Printed ("Bucket " +:+ name +:+ " does not exist or was not created via this CLI.")] /\
  made (handle_s3_commands args) w = [ListBuckets] /\
  filter (fun c => is_upload c = true) (made (handle_s3_commands args) w) = [].
Proof.
  intros Haction Hname Hlist Habsent.
  pose proof (s3_upload_absent args w name buckets Haction Hname Hlist Habsent) as Hrun.
  assert (Hmade : made (handle_s3_commands args) w = [ListBuckets])
    by (eapply made_suffix; [exact Hrun | reflexivity]).
  split; [unfold outcome; rewrite Hrun; reflexivity |].
  split; [eapply written_suffix; [exact Hrun | reflexivity] |].
  split; [exact Hmade |].
  rewrite Hmade. reflexivity.
Qed.

Lemma upload_to_absent_bucket_rejected_witness :
  (action (parse_args (S3Upload "scratch" "notes.txt")) = Some "upload" /\
   bucket_name (parse_args (S3Upload "scratch" "notes.txt")) = Some "scratch" /\
   on_list_buckets (provider (answering [])) (calls (answering [])) =
     Returned (listed some_buckets) /\
   "scratch" ∉ bucket_names (listed some_buckets)) /\
  (outcome (handle_s3_commands (parse_args (S3Upload "scratch" "notes.txt"))) (answering [])
     = Returned tt /\
   written (handle_s3_commands (parse_args (S3Upload "scratch" "notes.txt"))) (answering [])
     = [Printed ("Bucket " +:+ "scratch"
                 +:+ " does not exist or was not created via this CLI.")] /\
   made (handle_s3_commands (parse_args (S3Upload "scratch" "notes.txt"))) (answering [])
     = [ListBuckets] /\
   filter (fun c => is_upload c = true)
     (made (handle_s3_commands (parse_args (S3Upload "scratch" "notes.txt"))) (answering []))
     = []).
Proof.
  assert (Habsent : "scratch" ∉ bucket_names (listed some_buckets)).
  { intros Hin. vm_compute in Hin.
    repeat (apply elem_of_cons in Hin as [Hin | Hin]; [discriminate Hin |]).
    inversion Hin. }
  split; [repeat (split; [reflexivity |]); exact Habsent |].
  apply (upload_to_absent_bucket_rejected
           (parse_args (S3Upload "scratch" "notes.txt")) (answering [])
           "scratch" (listed some_buckets));
    [reflexivity | reflexivity | reflexivity | exact Habsent].
Defined.

(** C6: an Upload whose bucket name is in the fetched list and whose file can
    be read makes exactly one upload call, with the file's bytes, the bucket
    name, and the local path as object key; when the provider accepts it the
    success line with file and bucket is printed and the command returns. *)
Theorem upload_to_present_bucket (args : Namespace) (w : World)
    (name path : string) (data : list Byte.byte) (buckets : S3.ListBucketsResult) :
  action args = Some "upload" ->
  bucket_name args = Some name ->
  file args = Some path ->
  on_list_buckets (provider w) (calls w) = Returned buckets ->
  name ∈ bucket_names buckets ->
  files w !! path = Some data ->
  made (handle_s3_commands args) w = [ListBuckets; UploadFileobj data name path] /\
  filter (fun c => is_upload c = true) (made (handle_s3_commands args) w) =
    [UploadFileobj data name path] /\
  (on_upload_fileobj (provider w) (calls w ++ [ListBuckets]) data name path = Returned tt ->
   outcome (handle_s3_commands args) w = Returned tt /\
   written (handle_s3_commands args) w =
     [Printed ("Uploaded " +:+ path +:+ " to bucket " +:+ name)]).
Proof.
  intros Haction Hname Hfile Hlist Hpresent Hdata.
  pose proof (s3_upload_present args w name path data buckets
                Haction Hname Hfile Hlist Hpresent Hdata) as Hrun.
  cbn zeta in Hrun. cbn [calls log_call] in Hrun.
  assert (Hmade : made (handle_s3_commands args) w =
                  [ListBuckets; UploadFileobj data name path]).
  { destruct (on_upload_fileobj _ _ _ _ _) as [[] | e];
      (eapply made_suffix; [exact Hrun |]);
      cbn [calls write log_call]; rewrite <- app_assoc; reflexivity. }
  split; [exact Hmade |].
  split; [rewrite Hmade; reflexivity |].
  intros Haccepted. rewrite Haccepted in Hrun.
  split; [unfold outcome; rewrite Hrun; reflexivity |].
  eapply written_suffix; [exact Hrun | reflexivity].
Qed.

Lemma upload_to_present_bucket_witness :
  (action (parse_args (S3Upload "backups" "notes.txt")) = Some "upload" /\
   bucket_name (parse_args (S3Upload "backups" "notes.txt")) = Some "backups" /\
   file (parse_args (S3Upload "backups" "notes.txt")) = Some "notes.txt" /\
   on_list_buckets (provider (answering [])) (calls (answering [])) =
     Returned (listed some_buckets) /\
   "backups" ∈ bucket_names (listed some_buckets) /\
   files (answering []) !! "notes.txt" = Some [Byte.x68; Byte.x69]) /\
  (made (handle_s3_commands (parse_args (S3Upload "backups" "notes.txt"))) (answering []) =
     [ListBuckets; UploadFileobj [Byte.x68; Byte.x69] "backups" "notes.txt"] /\
   filter (fun c => is_upload c = true)
     (made (handle_s3_commands (parse_args (S3Upload "backups" "notes.txt"))) (answering []))
     = [UploadFileobj [Byte.x68; Byte.x69] "backups" "notes.txt"] /\
   (on_upload_fileobj (provider (answering [])) (calls (answering []) ++ [ListBuckets])
                      [Byte.x68; Byte.x69] "backups" "notes.txt" = Returned tt ->
    outcome (handle_s3_commands (parse_args (S3Upload "backups" "notes.txt"))) (answering [])
      = Returned tt /\
    written (handle_s3_commands (parse_args (S3Upload "backups" "notes.txt"))) (answering [])
      = [Printed ("Uploaded " +:+ "notes.txt" +:+ " to bucket " +:+ "backups")])).
Proof.
  assert (Hpresent : "backups" ∈ bucket_names (listed some_buckets))
    by (apply list_elem_of_further, list_elem_of_here).
  assert (Hdata : files (answering []) !! "notes.txt" = Some [Byte.x68; Byte.x69])
    by (vm_compute; reflexivity).
  split; [repeat (split; [first [reflexivity | exact Hpresent] |]); exact Hdata |].
  apply (upload_to_present_bucket
           (parse_args (S3Upload "backups" "notes.txt")) (answering [])
           "backups" "notes.txt" [Byte.x68; Byte.x69] (listed some_buckets));
    [reflexivity | reflexivity | reflexivity | reflexivity | exact Hpresent | exact Hdata].
Defined.

(** ** DNSZone/Create *)

Lemma str_inj (a b : Z) : str a = str b -> a = b.
Proof. unfold str. apply (inj pretty). Qed.

Lemma route53_create_run (args : Namespace) (w : World) (zone : string) :
  action args = Some "create" ->
  zone_name args = Some zone ->
  handle_route53_commands args w =
    let reference := str (str_hash w zone) in
    let w1 := log_call (CreateHostedZone zone reference) w in
    match on_create_hosted_zone (provider w) (calls w) zone reference with
    | Returned response =>
        (Returned tt,
         write (Printed ("Created DNS zone " +:+ zone +:+ ", ID: "
                         +:+ Route53.Id (Route53.Zone response))) w1)
    | Raised e => (Raised e, w1)
    end.
Proof.
  intros Haction Hzone. unfold handle_route53_commands.
  rewrite decide_True by exact Haction. rewrite Hzone.
  do 2 step.
  rewrite run_bind. cbn [hash].
  rewrite run_bind. unfold route53.create_hosted_zone. rewrite run_remote.
  destruct (on_create_hosted_zone _ _ _ _) as [response | e]; reflexivity.
Qed.

(** The one call of a zone creation carries the decimal rendering of the
    process's hash of the zone name. *)
Lemma route53_create_reference (args : Namespace) (w : World) (zone : string) :
  action args = Some "create" ->
  zone_name args = Some zone ->
  made (handle_route53_commands args) w =
    [CreateHostedZone zone (str (str_hash w zone))].
Proof.
  intros Haction Hzone.
  pose proof (route53_create_run args w zone Haction Hzone) as Hrun. cbn zeta in Hrun.
  destruct (on_create_hosted_zone _ _ _ _) as [response | e];
    (eapply made_suffix; [exact Hrun | reflexivity]).
Qed.

(** Two runs supply the same reference for a zone name exactly when their
    processes hash the name alike. *)
Lemma route53_reference_follows_hash (args : Namespace) (w1 w2 : World) (zone : string) :
  action args = Some "create" ->
  zone_name args = Some zone ->
  made (handle_route53_commands args) w1 = made (handle_route53_commands args) w2
  <-> str_hash w1 zone = str_hash w2 zone.
Proof.
  intros Haction Hzone.
  rewrite !(route53_create_reference args _ zone Haction Hzone).
  split.
  - intros Heq. apply str_inj. congruence.
  - intros ->. reflexivity.
Qed.

(** The hash of str as CPython 3.11 computes it under three seeds. *)
Example str_hash_seed_0 :
  PyHash.str_hash (PyHash.seeded 0) <$> ["example.com"; "a"; "example.com.long.zone"; ""]
  = [9080438458399421836; 4644417185603328019; -2263243200680456070; 0].
Proof. vm_compute. reflexivity. Qed.

Example str_hash_seed_1 :
  PyHash.str_hash (PyHash.seeded 1) <$> ["example.com"; "a"; "example.com.long.zone"]
  = [-3096585743249815084; -3012895188637184397; -6328909867861459607].
Proof. vm_compute. reflexivity. Qed.

Example str_hash_seed_2 :
  PyHash.str_hash (PyHash.seeded 2) <$> ["example.com"; "a"; "example.com.long.zone"]
  = [-2908741081428648178; 6352457989142756797; -18190977069453546].
Proof. vm_compute. reflexivity. Qed.

(** C9 (the code departs from it): the reference is the process's hash of the
    zone name, and that hash is keyed per process.  Creating the zone
    example.com in a process seeded with 1 and in a process seeded with 2,
    against the same provider, supplies two different references. *)
Theorem zone_reference_differs_across_runs :
  made (main (Route53Create "example.com")) (fresh (canned [] []) 1 []) =
    [CreateHostedZone "example.com" "-3096585743249815084"] /\
  made (main (Route53Create "example.com")) (fresh (canned [] []) 2 []) =
    [CreateHostedZone "example.com" "-2908741081428648178"] /\
  made (main (Route53Create "example.com")) (fresh (canned [] []) 1 []) <>
  made (main (Route53Create "example.com")) (fresh (canned [] []) 2 []).
Proof.
  assert (H1 : made (main (Route53Create "example.com")) (fresh (canned [] []) 1 []) =
               [CreateHostedZone "example.com" "-3096585743249815084"])
    by (vm_compute; reflexivity).
  assert (H2 : made (main (Route53Create "example.com")) (fresh (canned [] []) 2 []) =
               [CreateHostedZone "example.com" "-2908741081428648178"])
    by (vm_compute; reflexivity).
  split; [exact H1 |]. split; [exact H2 |].
  rewrite H1, H2. discriminate.
Qed.

(** ** DNSZone/Manage *)

(** C10: a Manage command on a DNS zone returns normally and leaves the world
    as it was: no remote call, nothing raised, nothing printed. *)
Theorem dns_manage_is_a_stub (args : Namespace) (w : World) :
  action args = Some "manage" ->
  handle_route53_commands args w = (Returned tt, w) /\
  made (handle_route53_commands args) w = [] /\
  written (handle_route53_commands args) w = [].
Proof.
  intros Haction.
  assert (Hrun : handle_route53_commands args w = (Returned tt, w)).
  { unfold handle_route53_commands.
    rewrite decide_False by (rewrite Haction; discriminate).
    rewrite decide_True by exact Haction. reflexivity. }
  split; [exact Hrun |].
  split; [eapply made_nothing; [exact Hrun | reflexivity] |].
  unfold written. rewrite Hrun. apply drop_all.
Qed.

Lemma dns_manage_is_a_stub_witness :
  action (parse_args (Route53Manage "Z0ABC" "www A 192.0.2.1")) = Some "manage" /\
  (handle_route53_commands (parse_args (Route53Manage "Z0ABC" "www A 192.0.2.1"))
                           (answering [])
     = (Returned tt, answering []) /\
   made (handle_route53_commands (parse_args (Route53Manage "Z0ABC" "www A 192.0.2.1")))
        (answering []) = [] /\
   written (handle_route53_commands (parse_args (Route53Manage "Z0ABC" "www A 192.0.2.1")))
           (answering []) = []).
Proof.
  split; [reflexivity |].
  apply (dns_manage_is_a_stub
           (parse_args (Route53Manage "Z0ABC" "www A 192.0.2.1")) (answering []));
    reflexivity.
Defined.

(** * Further properties *)

(** ** The world only grows *)

Lemma continues_refl (w : World) : continues w w.
Proof. repeat split; reflexivity. Qed.

Lemma continues_trans (w1 w2 w3 : World) :
  continues w1 w2 -> continues w2 w3 -> continues w1 w3.
Proof.
  intros (Hp & Hh & Hf & Hc & Ht & Hs) (Hp' & Hh' & Hf' & Hc' & Ht' & Hs').
  repeat split; try congruence.
  - etrans; eassumption.
  - etrans; eassumption.
  - etrans; eassumption.
Qed.

Lemma orderly_ret {A} (a : A) : orderly (ret a).
Proof. intros w. apply continues_refl. Qed.

Lemma orderly_raise {A} (e : Exception) : orderly (raise (A := A) e).
Proof. intros w. apply continues_refl. Qed.

Lemma orderly_bind {A B} (m : M A) (k : A -> M B) :
  orderly m -> (forall a, orderly (k a)) -> orderly (mbind (M := M) k m).
Proof.
  intros Hm Hk w. rewrite run_bind. specialize (Hm w).
  destruct (m w) as [[a | e] w1]; cbn [snd] in *; [| exact Hm].
  eapply continues_trans; [exact Hm | apply Hk].
Qed.

Lemma orderly_print (line : string) : orderly (print line).
Proof.
  intros w. repeat split; try reflexivity.
  cbn. apply prefix_app_r. reflexivity.
Qed.

Lemma orderly_print_help : orderly print_help.
Proof.
  intros w. repeat split; try reflexivity.
  cbn. apply prefix_app_r. reflexivity.
Qed.

Lemma orderly_input (prompt : string) : orderly (input prompt).
Proof.
  intros w. unfold input. destruct (stdin w) as [| line rest] eqn:Hin;
    repeat split; cbn; try reflexivity; try (apply prefix_app_r; reflexivity).
  all: rewrite Hin; first [reflexivity | apply suffix_cons_r; reflexivity].
Qed.

Lemma orderly_open_rb (path : string) : orderly (open_rb path).
Proof. intros w. unfold open_rb. destruct (files w !! path); apply continues_refl. Qed.

Lemma orderly_hash (s : string) : orderly (hash s).
Proof. intros w. apply continues_refl. Qed.

Lemma orderly_remote {R} (c : Call) (answer : Provider -> list Call -> Outcome R) :
  orderly (remote c answer).
Proof.
  intros w. repeat split; try reflexivity.
  cbn. apply prefix_app_r. reflexivity.
Qed.

Lemma orderly_attr {A} (name : string) (v : option A) : orderly (attr name v).
Proof. destruct v; [apply orderly_ret | apply orderly_raise]. Qed.

Lemma orderly_local {A} (name : string) (v : option A) : orderly (local name v).
Proof. destruct v; [apply orderly_ret | apply orderly_raise]. Qed.

Lemma orderly_first {A} (xs : list A) : orderly (first xs).
Proof. destruct xs; [apply orderly_raise | apply orderly_ret]. Qed.

Lemma orderly_for_each {A} (xs : list A) (body : A -> M unit) :
  (forall x, orderly (body x)) -> orderly (for_each xs body).
Proof.
  intros Hbody. induction xs as [| x rest IH]; cbn [for_each].
  - apply orderly_ret.
  - apply orderly_bind; [apply Hbody | intros _; exact IH].
Qed.

Lemma orderly_if {A} (P : Prop) `{Decision P} (m1 m2 : M A) :
  orderly m1 -> orderly m2 -> orderly (if decide P then m1 else m2).
Proof. intros H1 H2. destruct (decide P); assumption. Qed.

Lemma orderly_if_bool {A} (b : bool) (m1 m2 : M A) :
  orderly m1 -> orderly m2 -> orderly (if b then m1 else m2).
Proof. intros H1 H2. destruct b; assumption. Qed.

Create HintDb orderly.
#[local] Hint Resolve orderly_ret orderly_raise orderly_print orderly_print_help
  orderly_input orderly_open_rb orderly_hash orderly_remote orderly_attr
  orderly_local orderly_first : orderly.

Ltac orderly :=
  repeat first
    [ solve [auto with orderly]
    | match goal with |- forall _, _ => intro end
    | apply orderly_if_bool
    | apply orderly_if
    | apply orderly_bind
    | apply orderly_for_each ].

Lemma orderly_handle_ec2 (args : Namespace) : orderly (handle_ec2_commands args).
Proof.
  unfold handle_ec2_commands, ec2.describe_instances, ec2.run_instances,
    ec2.start_instances, ec2.stop_instances.
  orderly.
Qed.

Lemma orderly_handle_s3 (args : Namespace) : orderly (handle_s3_commands args).
Proof.
  unfold handle_s3_commands, s3.create_bucket, s3.put_bucket_acl, s3.list_buckets,
    s3.upload_fileobj.
  cbv zeta. orderly.
Qed.

Lemma orderly_handle_route53 (args : Namespace) : orderly (handle_route53_commands args).
Proof.
  unfold handle_route53_commands, route53.create_hosted_zone.
  orderly.
Qed.


(** ** What the handlers can call *)

Lemma run_found {A} (m : M A) (w : World) (P : list Call -> Prop) (cs : list Call) :
  calls (m w).2 = calls w ++ cs -> P cs -> P (made m w).
Proof. intros Hcalls HP. rewrite (made_of_calls m w cs Hcalls). exact HP. Qed.

Lemma nothing_called (w : World) : calls w = calls w ++ [].
Proof. symmetry. apply app_nil_r. Qed.

Lemma handle_ec2_run (args : Namespace) (w : World) :
  ec2_run args w (made (handle_ec2_commands args) w).
Proof.
  unfold handle_ec2_commands.
  destruct (decide (action args = Some "create")) as [Hcreate | Hcreate].
  - pose proof (ec2_described args w (or_introl Hcreate)) as Hdescribed.
    destruct (on_describe_instances (provider w) (calls w) created_by_cli)
      as [instances | e] eqn:Hfetch.
    2:{ eapply run_found; [| exact Hdescribed].
        rewrite run_bind. unfold ec2.describe_instances. rewrite run_remote, Hfetch.
        reflexivity. }
    destruct (decide (2 <= length (running_instances instances))%nat) as [Hquota | Hquota].
    { eapply run_found; [| exact Hdescribed].
      rewrite run_bind. unfold ec2.describe_instances. rewrite run_remote, Hfetch.
      rewrite decide_True by exact Hquota. reflexivity. }
    destruct (ami args) as [family |] eqn:Hami.
    2:{ eapply run_found; [| exact Hdescribed].
        rewrite run_bind. unfold ec2.describe_instances. rewrite run_remote, Hfetch.
        rewrite decide_False by exact Hquota. reflexivity. }
    destruct (ami_id family) as [image |] eqn:Himage.
    2:{ eapply run_found; [| exact Hdescribed].
        rewrite run_bind. unfold ec2.describe_instances. rewrite run_remote, Hfetch.
        rewrite decide_False by exact Hquota. step. rewrite Himage. reflexivity. }
    destruct (instance_type args) as [ty |] eqn:Hty.
    2:{ eapply run_found; [| exact Hdescribed].
        rewrite run_bind. unfold ec2.describe_instances. rewrite run_remote, Hfetch.
        rewrite decide_False by exact Hquota. step. rewrite Himage. step. reflexivity. }
    eapply run_found;
      [| apply (ec2_created args w instances family image ty); auto; lia].
    rewrite run_bind. unfold ec2.describe_instances. rewrite run_remote, Hfetch.
    rewrite decide_False by exact Hquota. step. rewrite Himage. do 2 step.
    rewrite run_bind. unfold ec2.run_instances. rewrite run_remote.
    destruct (on_run_instances _ _ _ _ _ _ _) as [instance | e].
    + rewrite run_bind. destruct (Ec2.NewInstances instance);
        cbn [first ret raise snd print write log_call calls];
        rewrite <- app_assoc; reflexivity.
    + cbn [snd log_call calls]. rewrite <- app_assoc. reflexivity.
  - destruct (decide (action args = Some "manage")) as [Hmanage | Hmanage].
    + eapply run_found; [| apply ec2_no_call]. rewrite app_nil_r.
      destruct (instance_id args) as [id |]; [| reflexivity].
      step. rewrite decide_False by congruence. rewrite decide_False by congruence.
      reflexivity.
    + destruct (decide (action args = Some "list")) as [Hlist | Hlist].
      * eapply run_found; [| apply (ec2_described args w (or_intror Hlist))].
        rewrite run_bind. unfold ec2.describe_instances. rewrite run_remote.
        destruct (on_describe_instances _ _ _) as [instances | e]; [| reflexivity].
        rewrite quiet_for_each; [reflexivity |].
        intros reservation. apply quiet_for_each. intros instance. apply quiet_print.
      * eapply run_found; [apply nothing_called | apply ec2_no_call].
Qed.

(** Running a handler as far as the hypotheses decide it: sequencing, the
    built-ins, and the tests and answers recorded in the context. *)
Ltac run_with_context :=
  unfold ec2.describe_instances, ec2.run_instances, ec2.start_instances,
    ec2.stop_instances, s3.create_bucket, s3.put_bucket_acl, s3.list_buckets,
    s3.upload_fileobj, route53.create_hosted_zone, input, open_rb;
  repeat first
    [ rewrite run_bind
    | progress cbn [attr local first ret raise print input open_rb remote hash
                    fst snd provider str_hash calls files stdin terminal
                    write log_call set_stdin]
    | match goal with
      | H : ?x = Some _ |- context [?x] => rewrite H
      | H : ?x = None |- context [?x] => rewrite H
      | H : ?x = Returned _ |- context [?x] => rewrite H
      | H : ?x = Raised _ |- context [?x] => rewrite H
      | H : ?x = _ :: _ |- context [?x] => rewrite H
      | H : ?x = [] |- context [?x] => rewrite H
      end
    | rewrite decide_True by first [assumption | reflexivity | lia]
    | rewrite decide_False by first [assumption | discriminate | lia] ].

(** Reading the outcome, the calls and the output off a run that is known
    in full. *)
Ltac observe Hrun :=
  unfold outcome, made, written; rewrite Hrun;
  cbn [fst snd calls terminal stdin write writes log_call set_stdin];
  rewrite <- ?app_assoc, ?drop_app_length, ?drop_all;
  try reflexivity.

Lemma handle_s3_run (args : Namespace) (w : World) :
  s3_run args w (made (handle_s3_commands args) w).
Proof.
  unfold handle_s3_commands. cbv zeta.
  destruct (decide (action args = Some "create")) as [Hcreate | Hcreate].
  - destruct (public args) as [[|] |] eqn:Hpublic.
    + (* public: the confirmation is read first *)
      destruct (stdin w) as [| confirm rest] eqn:Hin.
      { eapply run_found; [| apply s3_no_call]. run_with_context. apply nothing_called. }
      destruct (decide (lower confirm ≠ "yes")) as [Hno | Hyes].
      { eapply run_found; [| apply s3_no_call]. run_with_context. apply nothing_called. }
      assert (Happroved : confirm ∈ approvals).
      { apply lower_yes. destruct (decide (lower confirm = "yes")); [assumption | contradiction]. }
      destruct (bucket_name args) as [name |] eqn:Hname.
      2:{ eapply run_found; [| apply s3_no_call]. run_with_context. apply nothing_called. }
      destruct (on_create_bucket (provider w) (calls w) name "us-west-2")
        as [[] | e] eqn:Hanswer.
      * eapply run_found;
          [| apply (s3_created_public args w name confirm rest); assumption].
        run_with_context.
        destruct (on_put_bucket_acl _ _ _ _) as [[] | e];
          run_with_context; rewrite <- app_assoc; reflexivity.
      * eapply run_found;
          [| apply (s3_creation_refused args w name confirm rest e); assumption].
        run_with_context. reflexivity.
    + (* private: straight to the creation *)
      destruct (bucket_name args) as [name |] eqn:Hname.
      2:{ eapply run_found; [| apply s3_no_call]. run_with_context. apply nothing_called. }
      eapply run_found; [| apply (s3_created_private args w name); assumption].
      run_with_context.
      destruct (on_create_bucket _ _ _ _) as [[] | e]; reflexivity.
    + eapply run_found; [| apply s3_no_call]. run_with_context. apply nothing_called.
  - destruct (decide (action args = Some "upload")) as [Hupload | Hupload].
    + pose proof (s3_listed args w (or_introl Hupload)) as Hlisted.
      destruct (on_list_buckets (provider w) (calls w)) as [buckets | e] eqn:Hlist.
      2:{ eapply run_found; [| exact Hlisted]. run_with_context. reflexivity. }
      destruct (bucket_name args) as [name |] eqn:Hname.
      2:{ eapply run_found; [| exact Hlisted]. run_with_context. reflexivity. }
      destruct (decide (name ∉ bucket_names buckets)) as [Habsent | Hpresent].
      { eapply run_found; [| exact Hlisted]. run_with_context. reflexivity. }
      assert (Hin : name ∈ bucket_names buckets).
      { destruct (decide (name ∈ bucket_names buckets)); [assumption | contradiction]. }
      destruct (file args) as [path |] eqn:Hfile.
      2:{ eapply run_found; [| exact Hlisted]. run_with_context. reflexivity. }
      destruct (files w !! path) as [data |] eqn:Hdata.
      2:{ eapply run_found; [| exact Hlisted]. run_with_context. reflexivity. }
      eapply run_found;
        [| apply (s3_uploaded args w name path data buckets); assumption].
      run_with_context.
      destruct (on_upload_fileobj _ _ _ _ _) as [[] | e];
        run_with_context; rewrite <- app_assoc; reflexivity.
    + destruct (decide (action args = Some "list")) as [Hlist | Hlist].
      * eapply run_found; [| apply (s3_listed args w (or_intror Hlist))].
        run_with_context.
        destruct (on_list_buckets _ _) as [buckets | e]; [| reflexivity].
        rewrite quiet_for_each; [reflexivity |].
        intros bucket. apply quiet_print.
      * eapply run_found; [apply nothing_called | apply s3_no_call].
Qed.

(** ** Mutating calls happen only behind their guard *)

(** X2: in every run of the handler, from any namespace and world, a
    creation call is made only for action 'create' and only after the
    describe call answered with fewer than two running instances; it asks
    for exactly one instance, of the type in the arguments, with the
    ownership tags. *)
Theorem creation_only_below_quota (args : Namespace) (w : World)
    (image ty : string) (lo hi : Z) (tags : list Ec2.TagSpecification) :
  RunInstances image ty lo hi tags ∈ made (handle_ec2_commands args) w ->
  action args = Some "create" /\
  (exists instances,
     on_describe_instances (provider w) (calls w) created_by_cli = Returned instances /\
     (length (running_instances instances) < 2)%nat) /\
  instance_type args = Some ty /\
  lo = 1 /\ hi = 1 /\ tags = ownership_tags.
Proof.
  intros Hin. pose proof (handle_ec2_run args w) as Hrun.
  destruct Hrun as [| Hdescribed | instances family image' ty' Hcreate Hfetch Hquota _ _ Hty].
  - inversion Hin.
  - apply list_elem_of_singleton in Hin. discriminate.
  - apply elem_of_cons in Hin as [Hin | Hin]; [discriminate |].
    apply list_elem_of_singleton in Hin. injection Hin as -> -> -> -> ->.
    split; [exact Hcreate |]. split; [exists instances; split; assumption |].
    split; [exact Hty |]. repeat split; reflexivity.
Qed.

Lemma creation_only_below_quota_witness :
  RunInstances "ami-12345678" "t3.nano" 1 1 ownership_tags
    ∈ made (handle_ec2_commands (parse_args (Ec2Create t3_nano ubuntu))) below_quota /\
  (action (parse_args (Ec2Create t3_nano ubuntu)) = Some "create" /\
   (exists instances,
      on_describe_instances (provider below_quota) (calls below_quota) created_by_cli
        = Returned instances /\
      (length (running_instances instances) < 2)%nat) /\
   instance_type (parse_args (Ec2Create t3_nano ubuntu)) = Some "t3.nano" /\
   1 = 1 /\ 1 = 1 /\ ownership_tags = ownership_tags).
Proof.
  assert (Hin : RunInstances "ami-12345678" "t3.nano" 1 1 ownership_tags
                  ∈ made (handle_ec2_commands (parse_args (Ec2Create t3_nano ubuntu)))
                         below_quota)
    by (vm_compute; apply list_elem_of_further, list_elem_of_here).
  split; [exact Hin |].
  exact (creation_only_below_quota _ _ _ _ _ _ _ Hin).
Defined.

(** X3: in every run of the handler a bucket is given the public-read ACL
    only when --public was asked, the line read from standard input was a
    spelling of 'yes', and the provider accepted the creation of that same
    bucket; no other ACL is ever set. *)
Theorem public_acl_only_after_approval (args : Namespace) (w : World)
    (bucket acl : string) :
  PutBucketAcl bucket acl ∈ made (handle_s3_commands args) w ->
  acl = "public-read" /\
  public args = Some true /\
  bucket_name args = Some bucket /\
  (exists confirm rest, stdin w = confirm :: rest /\ confirm ∈ approvals) /\
  on_create_bucket (provider w) (calls w) bucket "us-west-2" = Returned tt.
Proof.
  intros Hin. pose proof (handle_s3_run args w) as Hrun.
  destruct Hrun as [| name ? ? ? | name confirm rest e ? ? ? ? ? ?
                    | name confirm rest _ Hpublic Hname Hstdin Hyes Haccepted
                    | ? | name path data buckets ? ? ? ? ? ?];
    repeat (apply elem_of_cons in Hin as [Hin | Hin]; [try discriminate |]);
    try (inversion Hin; fail).
  injection Hin as -> ->.
  split; [reflexivity |]. split; [exact Hpublic |]. split; [exact Hname |].
  split; [exists confirm, rest; split; assumption | exact Haccepted].
Qed.

Lemma public_acl_only_after_approval_witness :
  PutBucketAcl "site-assets" "public-read"
    ∈ made (handle_s3_commands (parse_args (S3Create "site-assets" true)))
           (answering ["Yes"]) /\
  ("public-read" = "public-read" /\
   public (parse_args (S3Create "site-assets" true)) = Some true /\
   bucket_name (parse_args (S3Create "site-assets" true)) = Some "site-assets" /\
   (exists confirm rest, stdin (answering ["Yes"]) = confirm :: rest /\ confirm ∈ approvals) /\
   on_create_bucket (provider (answering ["Yes"])) (calls (answering ["Yes"]))
                    "site-assets" "us-west-2" = Returned tt).
Proof.
  assert (Hin : PutBucketAcl "site-assets" "public-read"
                  ∈ made (handle_s3_commands (parse_args (S3Create "site-assets" true)))
                         (answering ["Yes"]))
    by (vm_compute; apply list_elem_of_further, list_elem_of_here).
  split; [exact Hin |].
  exact (public_acl_only_after_approval _ _ _ _ Hin).
Defined.

(** X4: in every run of the handler an upload call is made only for action
    'upload', after the list call answered with a list that holds the target
    bucket name; it sends the bytes of the local file named by --file, and
    the object key is that path. *)
Theorem upload_only_to_listed_bucket (args : Namespace) (w : World)
    (data : list Byte.byte) (bucket key : string) :
  UploadFileobj data bucket key ∈ made (handle_s3_commands args) w ->
  action args = Some "upload" /\
  bucket_name args = Some bucket /\
  file args = Some key /\
  files w !! key = Some data /\
  exists buckets,
    on_list_buckets (provider w) (calls w) = Returned buckets /\
    bucket ∈ bucket_names buckets.
Proof.
  intros Hin. pose proof (handle_s3_run args w) as Hrun.
  destruct Hrun as [| name ? ? ? | name confirm rest e ? ? ? ? ? ?
                    | name confirm rest ? ? ? ? ? ?
                    | ? | name path bytes buckets Hupload Hname Hfile Hlist Hlisted Hdata];
    repeat (apply elem_of_cons in Hin as [Hin | Hin]; [try discriminate |]);
    try (inversion Hin; fail).
  injection Hin as -> -> ->.
  split; [exact Hupload |]. split; [exact Hname |]. split; [exact Hfile |].
  split; [exact Hdata |]. exists buckets. split; assumption.
Qed.

Lemma upload_only_to_listed_bucket_witness :
  UploadFileobj [Byte.x68; Byte.x69] "backups" "notes.txt"
    ∈ made (handle_s3_commands (parse_args (S3Upload "backups" "notes.txt")))
           (answering []) /\
  (action (parse_args (S3Upload "backups" "notes.txt")) = Some "upload" /\
   bucket_name (parse_args (S3Upload "backups" "notes.txt")) = Some "backups" /\
   file (parse_args (S3Upload "backups" "notes.txt")) = Some "notes.txt" /\
   files (answering []) !! "notes.txt" = Some [Byte.x68; Byte.x69] /\
   exists buckets,
     on_list_buckets (provider (answering [])) (calls (answering [])) = Returned buckets /\
     "backups" ∈ bucket_names buckets).
Proof.
  assert (Hin : UploadFileobj [Byte.x68; Byte.x69] "backups" "notes.txt"
                  ∈ made (handle_s3_commands (parse_args (S3Upload "backups" "notes.txt")))
                         (answering []))
    by (vm_compute; apply list_elem_of_further, list_elem_of_here).
  split; [exact Hin |].
  exact (upload_only_to_listed_bucket _ _ _ _ _ Hin).
Defined.

(** X5: in every run of the handler a bucket is created only for action
    'create', under the name in the arguments and in region us-west-2, and
    either --public was not asked or the line read from standard input was
    a spelling of 'yes'. *)
Theorem bucket_created_in_fixed_region (args : Namespace) (w : World)
    (bucket region : string) :
  CreateBucket bucket region ∈ made (handle_s3_commands args) w ->
  region = "us-west-2" /\
  action args = Some "create" /\
  bucket_name args = Some bucket /\
  (public args = Some false \/
   public args = Some true /\
   exists confirm rest, stdin w = confirm :: rest /\ confirm ∈ approvals).
Proof.
  intros Hin. pose proof (handle_s3_run args w) as Hrun.
  destruct Hrun as [| name Hcreate Hprivate Hname
                    | name confirm rest e Hcreate Hpublic Hname Hstdin Hyes _
                    | name confirm rest Hcreate Hpublic Hname Hstdin Hyes _
                    | ? | name path data buckets ? ? ? ? ? ?];
    repeat (apply elem_of_cons in Hin as [Hin | Hin]; [try discriminate |]);
    try (inversion Hin; fail);
    injection Hin as -> ->;
    (split; [reflexivity |]); (split; [exact Hcreate |]); (split; [exact Hname |]).
  - left. exact Hprivate.
  - right. split; [exact Hpublic |]. exists confirm, rest. split; assumption.
  - right. split; [exact Hpublic |]. exists confirm, rest. split; assumption.
Qed.

Lemma bucket_created_in_fixed_region_witness :
  CreateBucket "site-assets" "us-west-2"
    ∈ made (handle_s3_commands (parse_args (S3Create "site-assets" false))) (answering []) /\
  ("us-west-2" = "us-west-2" /\
   action (parse_args (S3Create "site-assets" false)) = Some "create" /\
   bucket_name (parse_args (S3Create "site-assets" false)) = Some "site-assets" /\
   (public (parse_args (S3Create "site-assets" false)) = Some false \/
    public (parse_args (S3Create "site-assets" false)) = Some true /\
    exists confirm rest, stdin (answering []) = confirm :: rest /\ confirm ∈ approvals)).
Proof.
  assert (Hin : CreateBucket "site-assets" "us-west-2"
                  ∈ made (handle_s3_commands (parse_args (S3Create "site-assets" false)))
                         (answering []))
    by (vm_compute; apply list_elem_of_here).
  split; [exact Hin |].
  exact (bucket_created_in_fixed_region _ _ _ _ Hin).
Defined.

(** ** The two listings *)

Lemma writes_nothing (w : World) : writes [] w = w.
Proof. destruct w. unfold writes. cbn. rewrite app_nil_r. reflexivity. Qed.

Lemma writes_writes (os os' : list Output) (w : World) :
  writes os' (writes os w) = writes (os ++ os') w.
Proof. unfold writes. cbn. rewrite app_assoc. reflexivity. Qed.

(** A loop whose body only writes returns normally, having written what each
    element writes, in order. *)
Lemma for_each_writes {A} (xs : list A) (body : A -> M unit) (g : A -> list Output) :
  (forall x w, body x w = (Returned tt, writes (g x) w)) ->
  forall w, for_each xs body w = (Returned tt, writes (xs ≫= g) w).
Proof.
  intros Hbody. induction xs as [| x rest IH]; intros w; cbn [for_each].
  - cbn. rewrite writes_nothing. reflexivity.
  - rewrite run_bind, Hbody, IH, writes_writes. reflexivity.
Qed.

Lemma written_by_writes {A} (m : M A) (w w0 : World) (o : Outcome A) (os : list Output) :
  m w = (o, writes os w0) -> terminal w0 = terminal w -> written m w = os.
Proof.
  intros Hrun Hsame. eapply written_suffix; [exact Hrun |].
  cbn. rewrite Hsame. reflexivity.
Qed.

Lemma bind_singleton {A B} (f : A -> B) (xs : list A) :
  xs ≫= (fun x => [f x]) = f <$> xs.
Proof. induction xs as [| x rest IH]; [reflexivity | cbn; f_equal; exact IH]. Qed.

Lemma bind_fmap {A B C} (f : B -> C) (g : A -> list B) (xs : list A) :
  xs ≫= (fun x => f <$> g x) = f <$> (xs ≫= g).
Proof.
  induction xs as [| x rest IH]; [reflexivity |].
  cbn. rewrite fmap_app. f_equal. exact IH.
Qed.

Lemma ec2_list_run (args : Namespace) (w : World) (instances : Ec2.DescribeInstancesResult) :
  action args = Some "list" ->
  on_describe_instances (provider w) (calls w) created_by_cli = Returned instances ->
  handle_ec2_commands args w =
    (Returned tt,
     writes (Printed ∘ instance_line <$> (Ec2.Reservations instances ≫= Ec2.Instances))
            (log_call (DescribeInstances created_by_cli) w)).
Proof.
  intros Hlist Hfetch. unfold handle_ec2_commands.
  rewrite decide_False by (rewrite Hlist; discriminate).
  rewrite decide_False by (rewrite Hlist; discriminate).
  rewrite decide_True by exact Hlist.
  rewrite run_bind. unfold ec2.describe_instances. rewrite run_remote, Hfetch.
  rewrite (for_each_writes _ _
             (fun r => Printed ∘ instance_line <$> Ec2.Instances r)).
  - rewrite bind_fmap. reflexivity.
  - intros reservation w'.
    rewrite (for_each_writes _ _ (fun i => [(Printed ∘ instance_line) i])).
    + rewrite bind_singleton. reflexivity.
    + intros instance w''. reflexivity.
Qed.

(** X6: the List action on instances makes the describe call with the
    CreatedByCLI filter and nothing else; when it is answered the handler
    prints one line per instance, reservation by reservation in the order of
    the answer, and returns normally. *)
Theorem ec2_list_prints_each_instance (args : Namespace) (w : World)
    (instances : Ec2.DescribeInstancesResult) :
  action args = Some "list" ->
  on_describe_instances (provider w) (calls w) created_by_cli = Returned instances ->
  outcome (handle_ec2_commands args) w = Returned tt /\
  made (handle_ec2_commands args) w = [DescribeInstances created_by_cli] /\
  written (handle_ec2_commands args) w =
    (fun i => Printed ("Instance ID: " +:+ Ec2.InstanceId i +:+ ", State: "
                       +:+ Ec2.StateName (Ec2.InstanceState i)))
      <$> (Ec2.Reservations instances ≫= Ec2.Instances).
Proof.
  intros Hlist Hfetch. pose proof (ec2_list_run args w instances Hlist Hfetch) as Hrun.
  split; [unfold outcome; rewrite Hrun; reflexivity |].
  split; [eapply made_suffix; [exact Hrun | reflexivity] |].
  erewrite written_by_writes; [| exact Hrun | reflexivity].
  reflexivity.
Qed.

Lemma ec2_list_prints_each_instance_witness :
  (action (parse_args Ec2List) = Some "list" /\
   on_describe_instances (provider below_quota) (calls below_quota) created_by_cli
     = Returned (reported one_running)) /\
  (outcome (handle_ec2_commands (parse_args Ec2List)) below_quota = Returned tt /\
   made (handle_ec2_commands (parse_args Ec2List)) below_quota
     = [DescribeInstances created_by_cli] /\
   written (handle_ec2_commands (parse_args Ec2List)) below_quota =
     (fun i => Printed ("Instance ID: " +:+ Ec2.InstanceId i +:+ ", State: "
                        +:+ Ec2.StateName (Ec2.InstanceState i)))
       <$> (Ec2.Reservations (reported one_running) ≫= Ec2.Instances)).
Proof.
  split; [split; reflexivity |].
  apply (ec2_list_prints_each_instance (parse_args Ec2List) below_quota
           (reported one_running)); reflexivity.
Defined.

Example ec2_list_lines :
  written (main Ec2List) below_quota =
    [Printed "Instance ID: i-0aaa, State: running";
     Printed "Instance ID: i-0bbb, State: stopped"].
Proof. vm_compute. reflexivity. Qed.

Lemma s3_list_run (args : Namespace) (w : World) (buckets : S3.ListBucketsResult) :
  action args = Some "list" ->
  on_list_buckets (provider w) (calls w) = Returned buckets ->
  handle_s3_commands args w =
    (Returned tt,
     writes (Printed ∘ bucket_line <$> S3.Buckets buckets) (log_call ListBuckets w)).
Proof.
  intros Hlist Hfetch. unfold handle_s3_commands. cbv zeta.
  rewrite decide_False by (rewrite Hlist; discriminate).
  rewrite decide_False by (rewrite Hlist; discriminate).
  rewrite decide_True by exact Hlist.
  rewrite run_bind. unfold s3.list_buckets. rewrite run_remote, Hfetch.
  rewrite (for_each_writes _ _ (fun b => [(Printed ∘ bucket_line) b])).
  - rewrite bind_singleton. reflexivity.
  - intros bucket w'. reflexivity.
Qed.

(** X7: the List action on buckets makes the list call and nothing else; when
    it is answered the handler prints one line per bucket of the account, in
    the order of the answer, and returns normally. *)
Theorem s3_list_prints_each_bucket (args : Namespace) (w : World)
    (buckets : S3.ListBucketsResult) :
  action args = Some "list" ->
  on_list_buckets (provider w) (calls w) = Returned buckets ->
  outcome (handle_s3_commands args) w = Returned tt /\
  made (handle_s3_commands args) w = [ListBuckets] /\
  written (handle_s3_commands args) w =
    (fun b => Printed ("Bucket Name: " +:+ S3.Name b)) <$> S3.Buckets buckets.
Proof.
  intros Hlist Hfetch. pose proof (s3_list_run args w buckets Hlist Hfetch) as Hrun.
  split; [unfold outcome; rewrite Hrun; reflexivity |].
  split; [eapply made_suffix; [exact Hrun | reflexivity] |].
  erewrite written_by_writes; [| exact Hrun | reflexivity].
  reflexivity.
Qed.

Lemma s3_list_prints_each_bucket_witness :
  (action (parse_args S3List) = Some "list" /\
   on_list_buckets (provider (answering [])) (calls (answering []))
     = Returned (listed some_buckets)) /\
  (outcome (handle_s3_commands (parse_args S3List)) (answering []) = Returned tt /\
   made (handle_s3_commands (parse_args S3List)) (answering []) = [ListBuckets] /\
   written (handle_s3_commands (parse_args S3List)) (answering []) =
     (fun b => Printed ("Bucket Name: " +:+ S3.Name b)) <$> S3.Buckets (listed some_buckets)).
Proof.
  split; [split; reflexivity |].
  apply (s3_list_prints_each_bucket (parse_args S3List) (answering [])
           (listed some_buckets)); reflexivity.
Defined.

(** ** Creating a bucket *)

Lemma s3_create_private (args : Namespace) (w : World) (name : string) :
  action args = Some "create" ->
  public args = Some false ->
  bucket_name args = Some name ->
  handle_s3_commands args w =
    match on_create_bucket (provider w) (calls w) name "us-west-2" with
    | Returned _ =>
        (Returned tt,
         write (Printed ("Created bucket " +:+ name))
               (log_call (CreateBucket name "us-west-2") w))
    | Raised e => (Raised e, log_call (CreateBucket name "us-west-2") w)
    end.
Proof.
  intros Haction Hprivate Hname. unfold handle_s3_commands. cbv zeta.
  run_with_context.
  destruct (on_create_bucket _ _ _ _) as [[] | e]; run_with_context; reflexivity.
Qed.

(** X8: a Create without --public asks nothing: it reads no line and writes
    no prompt, and makes the one call create-bucket at us-west-2.  When the
    provider accepts, 'Created bucket <name>' is printed; when it refuses,
    the exception leaves the handler and nothing is printed. *)
Theorem private_create_skips_confirmation (args : Namespace) (w : World) (name : string) :
  action args = Some "create" ->
  public args = Some false ->
  bucket_name args = Some name ->
  made (handle_s3_commands args) w = [CreateBucket name "us-west-2"] /\
  stdin (handle_s3_commands args w).2 = stdin w /\
  (on_create_bucket (provider w) (calls w) name "us-west-2" = Returned tt ->
   outcome (handle_s3_commands args) w = Returned tt /\
   written (handle_s3_commands args) w = [Printed ("Created bucket " +:+ name)]) /\
  (forall e,
   on_create_bucket (provider w) (calls w) name "us-west-2" = Raised e ->
   outcome (handle_s3_commands args) w = Raised e /\
   written (handle_s3_commands args) w = []).
Proof.
  intros Haction Hprivate Hname.
  pose proof (s3_create_private args w name Haction Hprivate Hname) as Hrun.
  destruct (on_create_bucket _ _ _ _) as [[] | e].
  - split; [observe Hrun |]. split; [rewrite Hrun; reflexivity |].
    split; [intros _; split; observe Hrun | intros e; discriminate].
  - split; [observe Hrun |]. split; [rewrite Hrun; reflexivity |].
    split; [discriminate |].
    intros e' [= <-]. split; observe Hrun.
Qed.

Lemma private_create_skips_confirmation_witness :
  (action (parse_args (S3Create "site-assets" false)) = Some "create" /\
   public (parse_args (S3Create "site-assets" false)) = Some false /\
   bucket_name (parse_args (S3Create "site-assets" false)) = Some "site-assets") /\
  (made (handle_s3_commands (parse_args (S3Create "site-assets" false))) (answering ["no"])
     = [CreateBucket "site-assets" "us-west-2"] /\
   stdin (handle_s3_commands (parse_args (S3Create "site-assets" false)) (answering ["no"])).2
     = stdin (answering ["no"]) /\
   (on_create_bucket (provider (answering ["no"])) (calls (answering ["no"]))
                     "site-assets" "us-west-2" = Returned tt ->
    outcome (handle_s3_commands (parse_args (S3Create "site-assets" false)))
            (answering ["no"]) = Returned tt /\
    written (handle_s3_commands (parse_args (S3Create "site-assets" false)))
            (answering ["no"]) = [Printed ("Created bucket " +:+ "site-assets")]) /\
   (forall e,
    on_create_bucket (provider (answering ["no"])) (calls (answering ["no"]))
                     "site-assets" "us-west-2" = Raised e ->
    outcome (handle_s3_commands (parse_args (S3Create "site-assets" false)))
            (answering ["no"]) = Raised e /\
    written (handle_s3_commands (parse_args (S3Create "site-assets" false)))
            (answering ["no"]) = [])).
Proof.
  split; [repeat split; reflexivity |].
  apply (private_create_skips_confirmation
           (parse_args (S3Create "site-assets" false)) (answering ["no"]) "site-assets");
    reflexivity.
Defined.

(** X9: a confirmed public Create whose two calls the provider accepts
    consumes the one confirmation line, prints 'Created bucket <name>' after
    the prompt, and returns normally. *)
Theorem public_create_reports_bucket (args : Namespace) (w : World)
    (confirm name : string) (rest : list string) :
  action args = Some "create" ->
  public args = Some true ->
  bucket_name args = Some name ->
  stdin w = confirm :: rest ->
  confirm ∈ approvals ->
  on_create_bucket (provider w) (calls w) name "us-west-2" = Returned tt ->
  on_put_bucket_acl (provider w) (calls w ++ [CreateBucket name "us-west-2"])
                    name "public-read" = Returned tt ->
  outcome (handle_s3_commands args) w = Returned tt /\
  written (handle_s3_commands args) w =
    [Prompted confirm_prompt; Printed ("Created bucket " +:+ name)] /\
  stdin (handle_s3_commands args w).2 = rest.
Proof.
  intros Haction Hpublic Hname Hin Hyes Hcreated Hacl.
  apply lower_yes in Hyes.
  pose proof (s3_create_public_confirmed args w confirm name rest
                Haction Hpublic Hname Hin Hyes) as Hrun.
  cbn zeta in Hrun. cbn [calls log_call set_stdin write] in Hrun.
  rewrite Hcreated, Hacl in Hrun.
  split; [observe Hrun |]. split; [observe Hrun |].
  rewrite Hrun. reflexivity.
Qed.

Lemma public_create_reports_bucket_witness :
  (action (parse_args (S3Create "site-assets" true)) = Some "create" /\
   public (parse_args (S3Create "site-assets" true)) = Some true /\
   bucket_name (parse_args (S3Create "site-assets" true)) = Some "site-assets" /\
   stdin (answering ["yes"; "more"]) = ["yes"; "more"] /\
   "yes" ∈ approvals /\
   on_create_bucket (provider (answering ["yes"; "more"])) (calls (answering ["yes"; "more"]))
                    "site-assets" "us-west-2" = Returned tt /\
   on_put_bucket_acl (provider (answering ["yes"; "more"]))
                     (calls (answering ["yes"; "more"])
                      ++ [CreateBucket "site-assets" "us-west-2"])
                     "site-assets" "public-read" = Returned tt) /\
  (outcome (handle_s3_commands (parse_args (S3Create "site-assets" true)))
           (answering ["yes"; "more"]) = Returned tt /\
   written (handle_s3_commands (parse_args (S3Create "site-assets" true)))
           (answering ["yes"; "more"]) =
     [Prompted confirm_prompt; Printed ("Created bucket " +:+ "site-assets")] /\
   stdin (handle_s3_commands (parse_args (S3Create "site-assets" true))
                             (answering ["yes"; "more"])).2 = ["more"]).
Proof.
  assert (Hyes : "yes" ∈ approvals) by apply list_elem_of_here.
  split; [repeat (split; [first [reflexivity | exact Hyes] |]); reflexivity |].
  apply (public_create_reports_bucket
           (parse_args (S3Create "site-assets" true)) (answering ["yes"; "more"])
           "yes" "site-assets" ["more"]);
    first [reflexivity | exact Hyes].
Defined.

(** X10: when the provider accepts create-bucket but refuses the ACL call of
    a confirmed public Create, the exception leaves the handler after both
    calls were made: the bucket has been created without the public ACL and
    no 'Created bucket' line is printed. *)
Theorem public_create_acl_refused (args : Namespace) (w : World)
    (confirm name : string) (rest : list string) (e : Exception) :
  action args = Some "create" ->
  public args = Some true ->
  bucket_name args = Some name ->
  stdin w = confirm :: rest ->
  confirm ∈ approvals ->
  on_create_bucket (provider w) (calls w) name "us-west-2" = Returned tt ->
  on_put_bucket_acl (provider w) (calls w ++ [CreateBucket name "us-west-2"])
                    name "public-read" = Raised e ->
  outcome (handle_s3_commands args) w = Raised e /\
  made (handle_s3_commands args) w =
    [CreateBucket name "us-west-2"; PutBucketAcl name "public-read"] /\
  written (handle_s3_commands args) w = [Prompted confirm_prompt].
Proof.
  intros Haction Hpublic Hname Hin Hyes Hcreated Hacl.
  apply lower_yes in Hyes.
  pose proof (s3_create_public_confirmed args w confirm name rest
                Haction Hpublic Hname Hin Hyes) as Hrun.
  cbn zeta in Hrun. cbn [calls log_call set_stdin write] in Hrun.
  rewrite Hcreated, Hacl in Hrun.
  repeat split; observe Hrun.
Qed.

Lemma public_create_acl_refused_witness :
  (action (parse_args (S3Create "site-assets" true)) = Some "create" /\
   public (parse_args (S3Create "site-assets" true)) = Some true /\
   bucket_name (parse_args (S3Create "site-assets" true)) = Some "site-assets" /\
   stdin (fresh (refusing_acl (ClientError "AccessDenied")) 0 ["yes"]) = ["yes"] /\
   "yes" ∈ approvals /\
   on_create_bucket (provider (fresh (refusing_acl (ClientError "AccessDenied")) 0 ["yes"]))
                    (calls (fresh (refusing_acl (ClientError "AccessDenied")) 0 ["yes"]))
                    "site-assets" "us-west-2" = Returned tt /\
   on_put_bucket_acl (provider (fresh (refusing_acl (ClientError "AccessDenied")) 0 ["yes"]))
                     (calls (fresh (refusing_acl (ClientError "AccessDenied")) 0 ["yes"])
                      ++ [CreateBucket "site-assets" "us-west-2"])
                     "site-assets" "public-read" = Raised (ClientError "AccessDenied")) /\
  (outcome (handle_s3_commands (parse_args (S3Create "site-assets" true)))
           (fresh (refusing_acl (ClientError "AccessDenied")) 0 ["yes"])
     = Raised (ClientError "AccessDenied") /\
   made (handle_s3_commands (parse_args (S3Create "site-assets" true)))
        (fresh (refusing_acl (ClientError "AccessDenied")) 0 ["yes"]) =
     [CreateBucket "site-assets" "us-west-2"; PutBucketAcl "site-assets" "public-read"] /\
   written (handle_s3_commands (parse_args (S3Create "site-assets" true)))
           (fresh (refusing_acl (ClientError "AccessDenied")) 0 ["yes"])
     = [Prompted confirm_prompt]).
Proof.
  assert (Hyes : "yes" ∈ approvals) by apply list_elem_of_here.
  split; [repeat (split; [first [reflexivity | exact Hyes] |]); reflexivity |].
  apply (public_create_acl_refused
           (parse_args (S3Create "site-assets" true))
           (fresh (refusing_acl (ClientError "AccessDenied")) 0 ["yes"])
           "yes" "site-assets" [] (ClientError "AccessDenied"));
    first [reflexivity | exact Hyes].
Defined.

(** X11: a public Create that finds standard input at its end raises
    [EOFError] after writing the prompt; no remote call is made. *)
Theorem public_create_at_end_of_input (args : Namespace) (w : World) :
  action args = Some "create" ->
  public args = Some true ->
  stdin w = [] ->
  outcome (handle_s3_commands args) w = Raised EOFError /\
  made (handle_s3_commands args) w = [] /\
  written (handle_s3_commands args) w = [Prompted confirm_prompt].
Proof.
  intros Haction Hpublic Hin.
  assert (Hrun : handle_s3_commands args w
                 = (Raised EOFError, write (Prompted confirm_prompt) w)).
  { unfold handle_s3_commands. cbv zeta. run_with_context. reflexivity. }
  repeat split; observe Hrun.
Qed.

Lemma public_create_at_end_of_input_witness :
  (action (parse_args (S3Create "site-assets" true)) = Some "create" /\
   public (parse_args (S3Create "site-assets" true)) = Some true /\
   stdin (answering []) = []) /\
  (outcome (handle_s3_commands (parse_args (S3Create "site-assets" true))) (answering [])
     = Raised EOFError /\
   made (handle_s3_commands (parse_args (S3Create "site-assets" true))) (answering []) = [] /\
   written (handle_s3_commands (parse_args (S3Create "site-assets" true))) (answering [])
     = [Prompted confirm_prompt]).
Proof.
  split; [repeat split; reflexivity |].
  apply (public_create_at_end_of_input
           (parse_args (S3Create "site-assets" true)) (answering []));
    reflexivity.
Defined.

(** ** Uploading *)

(** X12: when the list call of an Upload raises, the exception leaves the
    handler: no upload call is made and nothing is printed. *)
Theorem upload_stops_when_listing_fails (args : Namespace) (w : World) (e : Exception) :
  action args = Some "upload" ->
  on_list_buckets (provider w) (calls w) = Raised e ->
  outcome (handle_s3_commands args) w = Raised e /\
  made (handle_s3_commands args) w = [ListBuckets] /\
  written (handle_s3_commands args) w = [].
Proof.
  intros Haction Hlist.
  assert (Hrun : handle_s3_commands args w = (Raised e, log_call ListBuckets w)).
  { unfold handle_s3_commands. cbv zeta. run_with_context. reflexivity. }
  repeat split; observe Hrun.
Qed.

Lemma upload_stops_when_listing_fails_witness :
  (action (parse_args (S3Upload "backups" "notes.txt")) = Some "upload" /\
   on_list_buckets (provider (fresh (refusing_list (ClientError "AccessDenied")) 0 []))
                   (calls (fresh (refusing_list (ClientError "AccessDenied")) 0 []))
     = Raised (ClientError "AccessDenied")) /\
  (outcome (handle_s3_commands (parse_args (S3Upload "backups" "notes.txt")))
           (fresh (refusing_list (ClientError "AccessDenied")) 0 [])
     = Raised (ClientError "AccessDenied") /\
   made (handle_s3_commands (parse_args (S3Upload "backups" "notes.txt")))
        (fresh (refusing_list (ClientError "AccessDenied")) 0 []) = [ListBuckets] /\
   written (handle_s3_commands (parse_args (S3Upload "backups" "notes.txt")))
           (fresh (refusing_list (ClientError "AccessDenied")) 0 []) = []).
Proof.
  split; [split; reflexivity |].
  apply (upload_stops_when_listing_fails
           (parse_args (S3Upload "backups" "notes.txt"))
           (fresh (refusing_list (ClientError "AccessDenied")) 0 [])
           (ClientError "AccessDenied")); reflexivity.
Defined.

(** X13: an Upload to a listed bucket whose local file cannot be opened raises
    [OSError] for that path after the list call: no upload call is made and
    nothing is printed. *)
Theorem upload_of_unreadable_file (args : Namespace) (w : World)
    (name path : string) (buckets : S3.ListBucketsResult) :
  action args = Some "upload" ->
  bucket_name args = Some name ->
  file args = Some path ->
  on_list_buckets (provider w) (calls w) = Returned buckets ->
  name ∈ bucket_names buckets ->
  files w !! path = None ->
  outcome (handle_s3_commands args) w = Raised (OSError path) /\
  made (handle_s3_commands args) w = [ListBuckets] /\
  written (handle_s3_commands args) w = [].
Proof.
  intros Haction Hname Hfile Hlist Hpresent Hmissing.
  assert (Hlisted : ¬ (name ∉ bucket_names buckets))
    by (intros Habsent; exact (Habsent Hpresent)).
  assert (Hrun : handle_s3_commands args w = (Raised (OSError path), log_call ListBuckets w)).
  { unfold handle_s3_commands. cbv zeta. run_with_context. reflexivity. }
  repeat split; observe Hrun.
Qed.

Lemma upload_of_unreadable_file_witness :
  (action (parse_args (S3Upload "backups" "gone.txt")) = Some "upload" /\
   bucket_name (parse_args (S3Upload "backups" "gone.txt")) = Some "backups" /\
   file (parse_args (S3Upload "backups" "gone.txt")) = Some "gone.txt" /\
   on_list_buckets (provider (answering [])) (calls (answering []))
     = Returned (listed some_buckets) /\
   "backups" ∈ bucket_names (listed some_buckets) /\
   files (answering []) !! "gone.txt" = None) /\
  (outcome (handle_s3_commands (parse_args (S3Upload "backups" "gone.txt"))) (answering [])
     = Raised (OSError "gone.txt") /\
   made (handle_s3_commands (parse_args (S3Upload "backups" "gone.txt"))) (answering [])
     = [ListBuckets] /\
   written (handle_s3_commands (parse_args (S3Upload "backups" "gone.txt"))) (answering [])
     = []).
Proof.
  assert (Hpresent : "backups" ∈ bucket_names (listed some_buckets))
    by (apply list_elem_of_further, list_elem_of_here).
  assert (Hmissing : files (answering []) !! "gone.txt" = None)
    by (vm_compute; reflexivity).
  split; [repeat (split; [first [reflexivity | exact Hpresent] |]); exact Hmissing |].
  apply (upload_of_unreadable_file
           (parse_args (S3Upload "backups" "gone.txt")) (answering [])
           "backups" "gone.txt" (listed some_buckets));
    first [reflexivity | exact Hpresent | exact Hmissing].
Defined.

(** ** Creating an instance *)

(** X14: when the describe call of a Create raises, the exception leaves the
    handler: no creation call is made and nothing is printed. *)
Theorem create_stops_when_describe_fails (args : Namespace) (w : World) (e : Exception) :
  action args = Some "create" ->
  on_describe_instances (provider w) (calls w) created_by_cli = Raised e ->
  outcome (handle_ec2_commands args) w = Raised e /\
  made (handle_ec2_commands args) w = [DescribeInstances created_by_cli] /\
  written (handle_ec2_commands args) w = [].
Proof.
  intros Haction Hfetch.
  assert (Hrun : handle_ec2_commands args w
                 = (Raised e, log_call (DescribeInstances created_by_cli) w)).
  { unfold handle_ec2_commands. run_with_context. reflexivity. }
  repeat split; observe Hrun.
Qed.

Lemma create_stops_when_describe_fails_witness :
  (action (parse_args (Ec2Create t4g_nano amazon_linux)) = Some "create" /\
   on_describe_instances
     (provider (fresh (refusing_describe (ClientError "RequestLimitExceeded")) 0 []))
     (calls (fresh (refusing_describe (ClientError "RequestLimitExceeded")) 0 []))
     created_by_cli = Raised (ClientError "RequestLimitExceeded")) /\
  (outcome (handle_ec2_commands (parse_args (Ec2Create t4g_nano amazon_linux)))
           (fresh (refusing_describe (ClientError "RequestLimitExceeded")) 0 [])
     = Raised (ClientError "RequestLimitExceeded") /\
   made (handle_ec2_commands (parse_args (Ec2Create t4g_nano amazon_linux)))
        (fresh (refusing_describe (ClientError "RequestLimitExceeded")) 0 [])
     = [DescribeInstances created_by_cli] /\
   written (handle_ec2_commands (parse_args (Ec2Create t4g_nano amazon_linux)))
           (fresh (refusing_describe (ClientError "RequestLimitExceeded")) 0 []) = []).
Proof.
  split; [split; reflexivity |].
  apply (create_stops_when_describe_fails
           (parse_args (Ec2Create t4g_nano amazon_linux))
           (fresh (refusing_describe (ClientError "RequestLimitExceeded")) 0 [])
           (ClientError "RequestLimitExceeded")); reflexivity.
Defined.

(** X15: when the creation call is answered with an empty list of
    instances, line 88 raises [IndexError]: the creation call has been made
    and nothing is printed. *)
Theorem creation_answered_without_instance (args : Namespace) (w : World)
    (instances : Ec2.DescribeInstancesResult) (family : AmiChoice) (image ty : string) :
  action args = Some "create" ->
  ami args = Some (ami_name family) ->
  ami_id (ami_name family) = Some image ->
  instance_type args = Some ty ->
  on_describe_instances (provider w) (calls w) created_by_cli = Returned instances ->
  (length (running_instances instances) < 2)%nat ->
  on_run_instances (provider w) (calls w ++ [DescribeInstances created_by_cli])
                   image ty 1 1 ownership_tags = Returned {| Ec2.NewInstances := [] |} ->
  outcome (handle_ec2_commands args) w = Raised IndexError /\
  made (handle_ec2_commands args) w =
    [DescribeInstances created_by_cli; RunInstances image ty 1 1 ownership_tags] /\
  written (handle_ec2_commands args) w = [].
Proof.
  intros Haction Hami Himage Hty Hfetch Hquota Hanswer.
  pose proof (ec2_create_below_quota args w instances _ _ ty
                Haction Hami Himage Hty Hfetch Hquota) as Hrun.
  cbn zeta in Hrun. cbn [calls log_call] in Hrun.
  rewrite Hanswer in Hrun. cbn [Ec2.NewInstances] in Hrun.
  repeat split; observe Hrun.
Qed.

Lemma creation_answered_without_instance_witness :
  (action (parse_args (Ec2Create t3_nano ubuntu)) = Some "create" /\
   ami (parse_args (Ec2Create t3_nano ubuntu)) = Some (ami_name ubuntu) /\
   ami_id (ami_name ubuntu) = Some "ami-12345678" /\
   instance_type (parse_args (Ec2Create t3_nano ubuntu)) = Some "t3.nano" /\
   on_describe_instances (provider (fresh (describing all_stopped []) 0 []))
                         (calls (fresh (describing all_stopped []) 0 [])) created_by_cli
     = Returned all_stopped /\
   (length (running_instances all_stopped) < 2)%nat /\
   on_run_instances (provider (fresh (describing all_stopped []) 0 []))
                    (calls (fresh (describing all_stopped []) 0 [])
                     ++ [DescribeInstances created_by_cli])
                    "ami-12345678" "t3.nano" 1 1 ownership_tags
     = Returned {| Ec2.NewInstances := [] |}) /\
  (outcome (handle_ec2_commands (parse_args (Ec2Create t3_nano ubuntu)))
           (fresh (describing all_stopped []) 0 []) = Raised IndexError /\
   made (handle_ec2_commands (parse_args (Ec2Create t3_nano ubuntu)))
        (fresh (describing all_stopped []) 0 []) =
     [DescribeInstances created_by_cli;
      RunInstances "ami-12345678" "t3.nano" 1 1 ownership_tags] /\
   written (handle_ec2_commands (parse_args (Ec2Create t3_nano ubuntu)))
           (fresh (describing all_stopped []) 0 []) = []).
Proof.
  assert (Hquota : (length (running_instances all_stopped) < 2)%nat) by (vm_compute; lia).
  split; [repeat (split; [first [reflexivity | exact Hquota] |]); reflexivity |].
  apply (creation_answered_without_instance
           (parse_args (Ec2Create t3_nano ubuntu)) (fresh (describing all_stopped []) 0 [])
           all_stopped ubuntu "ami-12345678" "t3.nano");
    first [reflexivity | exact Hquota].
Defined.

(** X16: the handler itself does not reject an image family outside
    'ubuntu' and 'amazon-linux': below the quota such a family leaves the
    local [ami_id] unassigned and line 79 raises [UnboundLocalError], after
    the describe call and before any creation call. *)
Theorem create_with_unknown_family (args : Namespace) (w : World)
    (instances : Ec2.DescribeInstancesResult) (family : string) :
  action args = Some "create" ->
  ami args = Some family ->
  family <> "ubuntu" ->
  family <> "amazon-linux" ->
  on_describe_instances (provider w) (calls w) created_by_cli = Returned instances ->
  (length (running_instances instances) < 2)%nat ->
  outcome (handle_ec2_commands args) w = Raised (UnboundLocalError "ami_id") /\
  made (handle_ec2_commands args) w = [DescribeInstances created_by_cli] /\
  written (handle_ec2_commands args) w = [].
Proof.
  intros Haction Hami Hubuntu Hamazon Hfetch Hquota.
  assert (Himage : ami_id family = None).
  { unfold ami_id. rewrite decide_False by exact Hubuntu.
    rewrite decide_False by exact Hamazon. reflexivity. }
  assert (Hrun : handle_ec2_commands args w
                 = (Raised (UnboundLocalError "ami_id"),
                    log_call (DescribeInstances created_by_cli) w)).
  { unfold handle_ec2_commands. run_with_context. reflexivity. }
  repeat split; observe Hrun.
Qed.

Lemma create_with_unknown_family_witness :
  (action (unchecked_create "t3.nano" "debian") = Some "create" /\
   ami (unchecked_create "t3.nano" "debian") = Some "debian" /\
   "debian" <> "ubuntu" /\
   "debian" <> "amazon-linux" /\
   on_describe_instances (provider below_quota) (calls below_quota) created_by_cli
     = Returned (reported one_running) /\
   (length (running_instances (reported one_running)) < 2)%nat) /\
  (outcome (handle_ec2_commands (unchecked_create "t3.nano" "debian")) below_quota
     = Raised (UnboundLocalError "ami_id") /\
   made (handle_ec2_commands (unchecked_create "t3.nano" "debian")) below_quota
     = [DescribeInstances created_by_cli] /\
   written (handle_ec2_commands (unchecked_create "t3.nano" "debian")) below_quota = []).
Proof.
  assert (Hquota : (length (running_instances (reported one_running)) < 2)%nat)
    by (vm_compute; lia).
  assert (H1 : "debian" <> "ubuntu") by discriminate.
  assert (H2 : "debian" <> "amazon-linux") by discriminate.
  split; [repeat (split; [first [reflexivity | assumption] |]); exact Hquota |].
  apply (create_with_unknown_family
           (unchecked_create "t3.nano" "debian") below_quota (reported one_running) "debian");
    first [reflexivity | assumption].
Defined.

Lemma running_instances_filter (instances : Ec2.DescribeInstancesResult) :
  running_instances instances =
    filter (fun i => Ec2.StateName (Ec2.InstanceState i) = "running")
           (Ec2.Reservations instances ≫= Ec2.Instances).
Proof.
  unfold running_instances.
  induction (Ec2.Reservations instances) as [| r rest IH]; [reflexivity |].
  cbn. rewrite filter_app. f_equal. exact IH.
Qed.

(** X17: the cap counts the instances whose state is exactly 'running',
    over all reservations of the answer together; instances in any other
    state do not count.  A Create for one of the two families makes its
    creation call exactly when fewer than two are running. *)
Theorem create_iff_fewer_than_two_running (args : Namespace) (w : World)
    (instances : Ec2.DescribeInstancesResult) (family : AmiChoice) (ty : string) :
  action args = Some "create" ->
  ami args = Some (ami_name family) ->
  instance_type args = Some ty ->
  on_describe_instances (provider w) (calls w) created_by_cli = Returned instances ->
  (exists image,
     RunInstances image ty 1 1 ownership_tags ∈ made (handle_ec2_commands args) w)
  <->
  (length (filter (fun i => Ec2.StateName (Ec2.InstanceState i) = "running")
                  (Ec2.Reservations instances ≫= Ec2.Instances)) < 2)%nat.
Proof.
  intros Haction Hami Hty Hfetch. rewrite <- running_instances_filter. split.
  - intros [image Hin].
    destruct (decide (2 <= length (running_instances instances))%nat) as [Hquota |]; [| lia].
    pose proof (ec2_create_at_quota args w instances Haction Hfetch Hquota) as Hrun.
    erewrite made_suffix in Hin; [| exact Hrun | reflexivity].
    apply list_elem_of_singleton in Hin. discriminate.
  - intros Hquota. pose proof (ami_id_choice family) as Himage.
    eexists.
    pose proof (ec2_create_below_quota args w instances _ _ ty
                  Haction Hami Himage Hty Hfetch Hquota) as Hrun.
    cbn zeta in Hrun.
    assert (Hmade : made (handle_ec2_commands args) w =
                    [DescribeInstances created_by_cli;
                     RunInstances
                       (match family with
                        | ubuntu => "ami-12345678"
                        | amazon_linux => "ami-87654321"
                        end) ty 1 1 ownership_tags]).
    { destruct (on_run_instances _ _ _ _ _ _ _) as [instance | e];
        [destruct (Ec2.NewInstances instance) |]; observe Hrun. }
    rewrite Hmade. apply list_elem_of_further, list_elem_of_here.
Qed.

Lemma create_iff_fewer_than_two_running_witness :
  (action (parse_args (Ec2Create t3_nano ubuntu)) = Some "create" /\
   ami (parse_args (Ec2Create t3_nano ubuntu)) = Some (ami_name ubuntu) /\
   instance_type (parse_args (Ec2Create t3_nano ubuntu)) = Some "t3.nano" /\
   on_describe_instances (provider (fresh (describing all_stopped []) 0 []))
                         (calls (fresh (describing all_stopped []) 0 [])) created_by_cli
     = Returned all_stopped) /\
  ((exists image,
      RunInstances image "t3.nano" 1 1 ownership_tags
        ∈ made (handle_ec2_commands (parse_args (Ec2Create t3_nano ubuntu)))
               (fresh (describing all_stopped []) 0 []))
   <->
   (length (filter (fun i => Ec2.StateName (Ec2.InstanceState i) = "running")
                   (Ec2.Reservations all_stopped ≫= Ec2.Instances)) < 2)%nat).
Proof.
  split; [repeat split; reflexivity |].
  apply (create_iff_fewer_than_two_running
           (parse_args (Ec2Create t3_nano ubuntu)) (fresh (describing all_stopped []) 0 [])
           all_stopped ubuntu "t3.nano"); reflexivity.
Defined.

Example three_stopped_instances_allow_creation :
  made (main (Ec2Create t3_nano ubuntu))
       (fresh (describing all_stopped [instance_in "i-0new" "pending"]) 0 []) =
    [DescribeInstances created_by_cli;
     RunInstances "ami-12345678" "t3.nano" 1 1 ownership_tags].
Proof. vm_compute. reflexivity. Qed.

(** ** Dispatch *)

(** X18: a handler ignores an action it has no branch for, Python's [None]
    of a selector given without sub-command included: it returns normally
    and leaves the world as it was, with no call, no message and no usage
    text. *)
Theorem unhandled_action_is_ignored (args : Namespace) (w : World) :
  (action args <> Some "create" -> action args <> Some "manage" ->
   action args <> Some "list" ->
   handle_ec2_commands args w = (Returned tt, w)) /\
  (action args <> Some "create" -> action args <> Some "upload" ->
   action args <> Some "list" ->
   handle_s3_commands args w = (Returned tt, w)) /\
  (action args <> Some "create" ->
   handle_route53_commands args w = (Returned tt, w)).
Proof.
  split; [| split].
  - intros Hcreate Hmanage Hlist. unfold handle_ec2_commands.
    rewrite !decide_False by assumption. reflexivity.
  - intros Hcreate Hupload Hlist. unfold handle_s3_commands. cbv zeta.
    rewrite !decide_False by assumption. reflexivity.
  - intros Hcreate. unfold handle_route53_commands.
    rewrite decide_False by assumption.
    destruct (decide (action args = Some "manage")); reflexivity.
Qed.

Lemma unhandled_action_is_ignored_witness :
  (action (parse_args Ec2) <> Some "create" /\
   action (parse_args Ec2) <> Some "manage" /\
   action (parse_args Ec2) <> Some "list" /\
   action (parse_args Ec2) <> Some "upload") /\
  handle_ec2_commands (parse_args Ec2) at_quota = (Returned tt, at_quota) /\
  handle_s3_commands (parse_args Ec2) at_quota = (Returned tt, at_quota) /\
  handle_route53_commands (parse_args Ec2) at_quota = (Returned tt, at_quota).
Proof.
  assert (Hnone : forall name, action (parse_args Ec2) <> Some name) by discriminate.
  split; [repeat split; apply Hnone |].
  destruct (unhandled_action_is_ignored (parse_args Ec2) at_quota) as (Hec2 & Hs3 & Hdns).
  split; [apply Hec2; apply Hnone |].
  split; [apply Hs3; apply Hnone | apply Hdns; apply Hnone].
Defined.

(** Selectors alone and no selector at all, through [main]. *)
Example selector_alone_does_nothing (w : World) :
  main Ec2 w = (Returned tt, w) /\
  main S3_ w = (Returned tt, w) /\
  main Route53_ w = (Returned tt, w) /\
  main NoResource w = (Returned tt, write Help w).
Proof. repeat split; reflexivity. Qed.

(** X19: only the four commands written to change remote state can do so:
    a run of [main] that makes a mutating call was given a Create of an
    instance, a bucket or a zone, or an Upload.  Listings, Manage commands
    and bare selectors never make one. *)
Theorem only_four_commands_mutate (argv : CommandLine) (w : World) (c : Call) :
  c ∈ made (main argv) w ->
  mutating c = true ->
  may_mutate argv = true.
Proof.
  assert (Hquiet : forall m : M unit, m w = (Returned tt, w) -> c ∈ made m w -> False).
  { intros m Hrun Hin. erewrite made_nothing in Hin; [| exact Hrun | reflexivity].
    inversion Hin. }
  intros Hin Hmutating.
  destruct argv as [| | ty a | id choice | | | name pub | name path | | | zone | id rec];
    try reflexivity; exfalso.
  - (* no selector: the usage text *)
    erewrite made_nothing in Hin; [| reflexivity | reflexivity]. inversion Hin.
  - exact (Hquiet _ eq_refl Hin).
  - destruct choice; exact (Hquiet _ eq_refl Hin).
  - (* ec2 list *)
    change (main Ec2List) with (handle_ec2_commands (parse_args Ec2List)) in Hin.
    destruct (handle_ec2_run (parse_args Ec2List) w)
      as [| _ | instances family image ty' Hcreate _ _ _ _ _].
    + inversion Hin.
    + apply list_elem_of_singleton in Hin. subst c. discriminate.
    + discriminate Hcreate.
  - exact (Hquiet _ eq_refl Hin).
  - (* s3 list *)
    change (main S3List) with (handle_s3_commands (parse_args S3List)) in Hin.
    destruct (handle_s3_run (parse_args S3List) w)
      as [| name Hcreate _ _ | name confirm rest e Hcreate _ _ _ _ _
          | name confirm rest Hcreate _ _ _ _ _ | _
          | name path data buckets Hupload _ _ _ _ _];
      try discriminate.
    + inversion Hin.
    + apply list_elem_of_singleton in Hin. subst c. discriminate.
  - exact (Hquiet _ eq_refl Hin).
  - exact (Hquiet _ eq_refl Hin).
Qed.

Lemma only_four_commands_mutate_witness :
  (CreateBucket "site-assets" "us-west-2"
     ∈ made (main (S3Create "site-assets" false)) (answering []) /\
   mutating (CreateBucket "site-assets" "us-west-2") = true) /\
  may_mutate (S3Create "site-assets" false) = true.
Proof.
  assert (Hin : CreateBucket "site-assets" "us-west-2"
                  ∈ made (main (S3Create "site-assets" false)) (answering []))
    by (vm_compute; apply list_elem_of_here).
  split; [split; [exact Hin | reflexivity] |].
  exact (only_four_commands_mutate _ _ _ Hin eq_refl).
Defined.

(** ** Creating a zone *)

(** X20: a zone Create makes one call, with the zone name and the decimal
    rendering of the process's hash of that name as reference.  When the
    provider answers, the line with the zone name and the identifier of the
    answer is printed; when it raises, the exception leaves the handler and
    nothing is printed. *)
Theorem zone_creation_reports_identifier (args : Namespace) (w : World) (zone : string) :
  action args = Some "create" ->
  zone_name args = Some zone ->
  made (handle_route53_commands args) w =
    [CreateHostedZone zone (str (str_hash w zone))] /\
  (forall response,
     on_create_hosted_zone (provider w) (calls w) zone (str (str_hash w zone))
       = Returned response ->
     outcome (handle_route53_commands args) w = Returned tt /\
     written (handle_route53_commands args) w =
       [Printed ("Created DNS zone " +:+ zone +:+ ", ID: "
                 +:+ Route53.Id (Route53.Zone response))]) /\
  (forall e,
     on_create_hosted_zone (provider w) (calls w) zone (str (str_hash w zone))
       = Raised e ->
     outcome (handle_route53_commands args) w = Raised e /\
     written (handle_route53_commands args) w = []).
Proof.
  intros Haction Hzone.
  pose proof (route53_create_run args w zone Haction Hzone) as Hrun. cbn zeta in Hrun.
  destruct (on_create_hosted_zone _ _ _ _) as [response | e].
  - split; [observe Hrun |].
    split; [intros ? [= <-]; split; observe Hrun | intros ?; discriminate].
  - split; [observe Hrun |].
    split; [intros ?; discriminate | intros ? [= <-]; split; observe Hrun].
Qed.

Lemma zone_creation_reports_identifier_witness :
  (action (parse_args (Route53Create "example.com")) = Some "create" /\
   zone_name (parse_args (Route53Create "example.com")) = Some "example.com") /\
  (made (handle_route53_commands (parse_args (Route53Create "example.com"))) (answering []) =
     [CreateHostedZone "example.com" (str (str_hash (answering []) "example.com"))] /\
   (forall response,
      on_create_hosted_zone (provider (answering [])) (calls (answering [])) "example.com"
                            (str (str_hash (answering []) "example.com"))
        = Returned response ->
      outcome (handle_route53_commands (parse_args (Route53Create "example.com")))
              (answering []) = Returned tt /\
      written (handle_route53_commands (parse_args (Route53Create "example.com")))
              (answering []) =
        [Printed ("Created DNS zone " +:+ "example.com" +:+ ", ID: "
                  +:+ Route53.Id (Route53.Zone response))]) /\
   (forall e,
      on_create_hosted_zone (provider (answering [])) (calls (answering [])) "example.com"
                            (str (str_hash (answering []) "example.com"))
        = Raised e ->
      outcome (handle_route53_commands (parse_args (Route53Create "example.com")))
              (answering []) = Raised e /\
      written (handle_route53_commands (parse_args (Route53Create "example.com")))
              (answering []) = [])).
Proof.
  split; [split; reflexivity |].
  apply (zone_creation_reports_identifier
           (parse_args (Route53Create "example.com")) (answering []) "example.com");
    reflexivity.
Defined.

Example zone_creation_line :
  written (main (Route53Create "example.com")) (answering []) =
    [Printed "Created DNS zone example.com, ID: /hostedzone/Z0NEW"].
Proof. vm_compute. reflexivity. Qed.

(** X21: two runs of a zone Create for the same name, in whatever worlds,
    make the same call exactly when the two processes hash the name to the
    same integer: the reference carries the hash and nothing else of the
    world. *)
Theorem zone_reference_agrees_iff_hash_agrees (args : Namespace) (w1 w2 : World)
    (zone : string) :
  action args = Some "create" ->
  zone_name args = Some zone ->
  (made (handle_route53_commands args) w1 = made (handle_route53_commands args) w2
   <-> str_hash w1 zone = str_hash w2 zone).
Proof.
  intros Haction Hzone.
  rewrite (route53_create_reference args w1 zone Haction Hzone).
  rewrite (route53_create_reference args w2 zone Haction Hzone).
  split.
  - intros [= Hsame]. apply str_inj. exact Hsame.
  - intros Hsame. rewrite Hsame. reflexivity.
Qed.

Lemma zone_reference_agrees_iff_hash_agrees_witness :
  (action (parse_args (Route53Create "example.com")) = Some "create" /\
   zone_name (parse_args (Route53Create "example.com")) = Some "example.com") /\
  (made (handle_route53_commands (parse_args (Route53Create "example.com")))
        (fresh (canned [] []) 1 [])
   = made (handle_route53_commands (parse_args (Route53Create "example.com")))
          (fresh (canned two_running some_buckets) 1 ["yes"])
   <-> str_hash (fresh (canned [] []) 1 []) "example.com"
       = str_hash (fresh (canned two_running some_buckets) 1 ["yes"]) "example.com").
Proof.
  split; [split; reflexivity |].
  apply (zone_reference_agrees_iff_hash_agrees
           (parse_args (Route53Create "example.com"))
           (fresh (canned [] []) 1 []) (fresh (canned two_running some_buckets) 1 ["yes"])
           "example.com"); reflexivity.
Defined.

(** ** No error of the script's own making *)

Lemma sound_ret {A} (a : A) : sound (ret a).
Proof. intros w _. split; [reflexivity | discriminate]. Qed.

Lemma sound_raise {A} (e : Exception) : internal e = false -> sound (raise (A := A) e).
Proof. intros He w _. split; [reflexivity |]. intros e' [= <-]. exact He. Qed.

Lemma sound_bind {A B} (m : M A) (k : A -> M B) :
  sound m -> (forall a, sound (k a)) -> sound (mbind (M := M) k m).
Proof.
  intros Hm Hk w Hw. rewrite run_bind. destruct (Hm w Hw) as [Hp He].
  destruct (m w) as [[a | e] w1]; cbn [fst snd] in *.
  - rewrite <- Hp in Hw. destruct (Hk a w1 Hw) as [Hp' He'].
    split; [congruence | exact He'].
  - split; [exact Hp |]. intros e' [= <-]. apply (He e). reflexivity.
Qed.

(** Reading an attribute or a local that is there passes its value on. *)
Lemma sound_bind_attr {A B} (name : string) (v : A) (k : A -> M B) :
  sound (k v) -> sound (mbind (M := M) k (attr name (Some v))).
Proof. intros Hk w Hw. rewrite run_bind. exact (Hk w Hw). Qed.

Lemma sound_bind_local {A B} (name : string) (v : A) (k : A -> M B) :
  sound (k v) -> sound (mbind (M := M) k (local name (Some v))).
Proof. intros Hk w Hw. rewrite run_bind. exact (Hk w Hw). Qed.

Lemma sound_print (line : string) : sound (print line).
Proof. intros w _. split; [reflexivity | discriminate]. Qed.

Lemma sound_print_help : sound print_help.
Proof. intros w _. split; [reflexivity | discriminate]. Qed.

Lemma sound_input (prompt : string) : sound (input prompt).
Proof.
  intros w _. unfold input. destruct (stdin w); split; try reflexivity; try discriminate.
  intros e [= <-]. reflexivity.
Qed.

Lemma sound_open_rb (path : string) : sound (open_rb path).
Proof.
  intros w _. unfold open_rb. destruct (files w !! path);
    split; try reflexivity; try discriminate.
  intros e [= <-]. reflexivity.
Qed.

Lemma sound_hash (s : string) : sound (hash s).
Proof. intros w _. split; [reflexivity | discriminate]. Qed.

Lemma sound_first {A} (xs : list A) : sound (first xs).
Proof. destruct xs; [apply sound_raise; reflexivity | apply sound_ret]. Qed.

Lemma sound_remote {R} (c : Call) (answer : Provider -> list Call -> Outcome R) :
  (forall p h, well_behaved p -> raises_client_error (answer p h)) ->
  sound (remote c answer).
Proof.
  intros Hanswer w Hw. rewrite run_remote. cbn [fst snd]. split; [reflexivity |].
  intros e He. specialize (Hanswer (provider w) (calls w) Hw). rewrite He in Hanswer.
  destruct Hanswer as [detail ->]. reflexivity.
Qed.

Lemma sound_for_each {A} (xs : list A) (body : A -> M unit) :
  (forall x, sound (body x)) -> sound (for_each xs body).
Proof.
  intros Hbody. induction xs as [| x rest IH]; cbn [for_each].
  - apply sound_ret.
  - apply sound_bind; [apply Hbody | intros _; exact IH].
Qed.

Lemma sound_if {A} (P : Prop) `{Decision P} (m1 m2 : M A) :
  sound m1 -> sound m2 -> sound (if decide P then m1 else m2).
Proof. intros H1 H2. destruct (decide P); assumption. Qed.

Lemma sound_if_bool {A} (b : bool) (m1 m2 : M A) :
  sound m1 -> sound m2 -> sound (if b then m1 else m2).
Proof. intros H1 H2. destruct b; assumption. Qed.

Create HintDb sound.
#[local] Hint Resolve sound_ret sound_print sound_print_help sound_input sound_open_rb
  sound_hash sound_first : sound.

Ltac sound :=
  repeat first
    [ solve [auto with sound]
    | match goal with |- forall _, _ => intro end
    | apply sound_remote; intros ? ? Hbehaved; apply Hbehaved
    | apply sound_if_bool
    | apply sound_if
    | apply sound_bind_attr
    | apply sound_bind_local
    | apply sound_bind
    | apply sound_for_each ].

(** Branching on the tests that the parsed namespace decides. *)
Ltac dispatch :=
  repeat first [ rewrite decide_True by reflexivity
               | rewrite decide_False by discriminate ].

Lemma sound_main (argv : CommandLine) : sound (main argv).
Proof.
  destruct argv as [| | ty a | id choice | | | name pub | name path | | | zone | id rec];
    unfold main; cbv zeta;
    unfold handle_ec2_commands, handle_s3_commands, handle_route53_commands,
      ec2.describe_instances, ec2.run_instances, ec2.start_instances, ec2.stop_instances,
      s3.create_bucket, s3.put_bucket_acl, s3.list_buckets, s3.upload_fileobj,
      route53.create_hosted_zone;
    cbv zeta;
    try destruct a; try destruct ty; try destruct choice;
    cbn [parse_args under empty_namespace resource_type action instance_type ami
         instance_id bucket_name public file zone_name zone_id record
         ami_name instance_type_name manage_name];
    dispatch; sound.
Qed.

(** X22: for every command line the parser accepts, and against a provider
    that raises nothing but [ClientError], a run of [main] never raises
    [AttributeError] or [UnboundLocalError]: each handler reads only
    attributes its sub-parser has set, and the [choices] of --ami keep
    [ami_id] assigned. *)
Theorem main_raises_no_internal_error (argv : CommandLine) (w : World) (e : Exception) :
  well_behaved (provider w) ->
  outcome (main argv) w = Raised e ->
  internal e = false.
Proof. intros Hw He. exact (proj2 (sound_main argv w Hw) e He). Qed.

Lemma main_raises_no_internal_error_witness :
  (well_behaved (provider (fresh (refusing_list (ClientError "AccessDenied")) 0 [])) /\
   outcome (main (S3Upload "backups" "notes.txt"))
           (fresh (refusing_list (ClientError "AccessDenied")) 0 [])
     = Raised (ClientError "AccessDenied")) /\
  internal (ClientError "AccessDenied") = false.
Proof.
  assert (Hw : well_behaved (provider (fresh (refusing_list (ClientError "AccessDenied")) 0 []))).
  { repeat split; intros; cbn; try exact I. eexists. reflexivity. }
  assert (He : outcome (main (S3Upload "backups" "notes.txt"))
                       (fresh (refusing_list (ClientError "AccessDenied")) 0 [])
               = Raised (ClientError "AccessDenied")) by reflexivity.
  split; [split; [exact Hw | exact He] |].
  exact (main_raises_no_internal_error _ _ _ Hw He).
Defined.

(** ** Standard input *)

Lemma silent_ret {A} (a : A) : silent (ret a).
Proof. intros w. reflexivity. Qed.

Lemma silent_raise {A} (e : Exception) : silent (raise (A := A) e).
Proof. intros w. reflexivity. Qed.

Lemma silent_bind {A B} (m : M A) (k : A -> M B) :
  silent m -> (forall a, silent (k a)) -> silent (mbind (M := M) k m).
Proof.
  intros Hm Hk w. rewrite run_bind. specialize (Hm w).
  destruct (m w) as [[a | e] w1]; cbn [snd] in *; [| exact Hm].
  rewrite Hk. exact Hm.
Qed.

Lemma silent_print (line : string) : silent (print line).
Proof. intros w. reflexivity. Qed.

Lemma silent_print_help : silent print_help.
Proof. intros w. reflexivity. Qed.

Lemma silent_open_rb (path : string) : silent (open_rb path).
Proof. intros w. unfold open_rb. destruct (files w !! path); reflexivity. Qed.

Lemma silent_hash (s : string) : silent (hash s).
Proof. intros w. reflexivity. Qed.

Lemma silent_remote {R} (c : Call) (answer : Provider -> list Call -> Outcome R) :
  silent (remote c answer).
Proof. intros w. reflexivity. Qed.

Lemma silent_attr {A} (name : string) (v : option A) : silent (attr name v).
Proof. destruct v; [apply silent_ret | apply silent_raise]. Qed.

Lemma silent_local {A} (name : string) (v : option A) : silent (local name v).
Proof. destruct v; [apply silent_ret | apply silent_raise]. Qed.

Lemma silent_first {A} (xs : list A) : silent (first xs).
Proof. destruct xs; [apply silent_raise | apply silent_ret]. Qed.

Lemma silent_for_each {A} (xs : list A) (body : A -> M unit) :
  (forall x, silent (body x)) -> silent (for_each xs body).
Proof.
  intros Hbody. induction xs as [| x rest IH]; cbn [for_each].
  - apply silent_ret.
  - apply silent_bind; [apply Hbody | intros _; exact IH].
Qed.

Lemma silent_if {A} (P : Prop) `{Decision P} (m1 m2 : M A) :
  silent m1 -> silent m2 -> silent (if decide P then m1 else m2).
Proof. intros H1 H2. destruct (decide P); assumption. Qed.

Lemma silent_if_bool {A} (b : bool) (m1 m2 : M A) :
  silent m1 -> silent m2 -> silent (if b then m1 else m2).
Proof. intros H1 H2. destruct b; assumption. Qed.

Create HintDb silent.
#[local] Hint Resolve silent_ret silent_raise silent_print silent_print_help
  silent_open_rb silent_hash silent_remote silent_attr silent_local silent_first : silent.

Ltac silent :=
  repeat first
    [ solve [auto with silent]
    | match goal with |- forall _, _ => intro end
    | apply silent_if_bool
    | apply silent_if
    | apply silent_bind
    | apply silent_for_each ].

Ltac unfold_handlers :=
  unfold handle_ec2_commands, handle_s3_commands, handle_route53_commands,
    ec2.describe_instances, ec2.run_instances, ec2.start_instances, ec2.stop_instances,
    s3.create_bucket, s3.put_bucket_acl, s3.list_buckets, s3.upload_fileobj,
    route53.create_hosted_zone;
  cbv zeta.

Lemma silent_handle_ec2 (args : Namespace) : silent (handle_ec2_commands args).
Proof. unfold_handlers. silent. Qed.

Lemma silent_handle_route53 (args : Namespace) : silent (handle_route53_commands args).
Proof. unfold_handlers. silent. Qed.

Lemma silent_bind_attr {A B} (name : string) (v : A) (k : A -> M B) :
  silent (k v) -> silent (mbind (M := M) k (attr name (Some v))).
Proof. intros Hk w. rewrite run_bind. exact (Hk w). Qed.

Ltac parsed :=
  unfold main; cbv zeta; unfold_handlers;
  cbn [parse_args under empty_namespace resource_type action instance_type ami
       instance_id bucket_name public file zone_name zone_id record
       ami_name instance_type_name manage_name];
  dispatch.

(** X23: the only command that reads standard input is a bucket Create with
    --public, and it reads exactly one line (none when input is at its end);
    every other command leaves standard input untouched, whatever the
    provider answers. *)
Theorem stdin_read_only_by_public_create (argv : CommandLine) (w : World) :
  stdin (main argv w).2 =
    match argv with
    | S3Create _ true => tail (stdin w)
    | _ => stdin w
    end.
Proof.
  destruct argv as [| | ty a | id choice | | | name pub | name path | | | zone | id rec];
    try destruct choice;
    try (revert w;
         match goal with |- forall w, stdin (?m w).2 = stdin w => change (silent m) end;
         parsed; silent; fail).
  destruct pub.
  - parsed. rewrite run_bind. cbn [attr ret]. rewrite run_bind. unfold input.
    destruct (stdin w) as [| confirm rest] eqn:Hin; [cbn; exact Hin |].
    match goal with
    | |- stdin (?k ?w1).2 = _ => transitivity (stdin w1); [| reflexivity]
    end.
    clear Hin.
    match goal with
    | |- stdin (?k ?w1).2 = stdin ?w1 => generalize w1; change (silent k)
    end.
    silent.
  - revert w. change (silent (main (S3Create name false))).
    parsed. apply silent_bind_attr. silent.
Qed.
